(** * Fantasy-Premier-League-QA: the question-answering pipeline

    A shallow embedding of [qa_system.py] and [document_processor.py].

    Python text is modelled by [string], one [ascii] per code point, so
    the development speaks about texts over the code points U+0000 to
    U+00FF; the character tables below are the interpreter's tables
    restricted to that range (a literal outside it is only ever printed
    and is kept as written).  Methods that touch the pipeline object,
    the console or a remote service run in a state-and-exception monad;
    the remote services and the third-party library objects are the
    fields of the [Collaborators] interface. *)

From Stdlib Require Import ZArith NArith String Ascii List Bool Lia PrimFloat.
From Stdlib Require Import DecimalString.
From stdpp Require Import base option gmap strings list.

#[local] Set Warnings "-inexact-float".
#[local] Open Scope string_scope.
#[local] Open Scope list_scope.
#[local] Open Scope Z_scope.

(** ** Python text primitives *)

Module Py.

Definition code (c : ascii) : N := N_of_ascii c.

Definition in_range (lo hi : N) (c : ascii) : bool :=
  ((lo <=? code c) && (code c <=? hi))%N.

Definition is_char (n : N) (c : ascii) : bool := (code c =? n)%N.

(** [\d] of the [re] module. *)
Definition is_digit (c : ascii) : bool := in_range 48 57 c.

(** [\w] of the [re] module on [str] patterns: alphanumeric code points
    and the underscore. *)
Definition is_word (c : ascii) : bool :=
  is_digit c || in_range 65 90 c || in_range 97 122 c || is_char 95 c
  || is_char 170 c || in_range 178 179 c || is_char 181 c
  || in_range 185 186 c || in_range 188 190 c
  || in_range 192 214 c || in_range 216 246 c || in_range 248 255 c.

(** White space skipped by [int()] around the digits. *)
Definition is_int_space (c : ascii) : bool :=
  in_range 9 13 c || is_char 32 c || is_char 133 c || is_char 160 c.

(** [str.lower] on one code point. *)
Definition lower_char (c : ascii) : ascii :=
  if in_range 65 90 c || in_range 192 214 c || in_range 216 222 c
  then ascii_of_N (code c + 32)
  else c.

(** [str.upper] on one code point; used on ASCII letters only. *)
Definition upper_char (c : ascii) : ascii :=
  if in_range 97 122 c then ascii_of_N (code c - 32) else c.

Definition is_ascii_letter (c : ascii) : bool :=
  in_range 65 90 c || in_range 97 122 c.

Fixpoint lower (s : string) : string :=
  match s with
  | EmptyString => EmptyString
  | String c s' => String (lower_char c) (lower s')
  end.

(** [str.title]: a cased character is upper-cased after an uncased one
    and lower-cased after a cased one.  The source applies it to the
    ASCII literals of the player list only, and the tables used here are
    the ASCII ones. *)
Fixpoint title_from (prev_cased : bool) (s : string) : string :=
  match s with
  | EmptyString => EmptyString
  | String c s' =>
      String (if prev_cased then lower_char c else upper_char c)
             (title_from (is_ascii_letter c) s')
  end.

Definition title (s : string) : string := title_from false s.

(** [s.startswith(p)]. *)
Fixpoint startswith (p s : string) : bool :=
  match p with
  | EmptyString => true
  | String a p' =>
      match s with
      | EmptyString => false
      | String b s' => Ascii.eqb a b && startswith p' s'
      end
  end.

(** [needle in hay]. *)
Fixpoint contains (needle hay : string) : bool :=
  startswith needle hay ||
  match hay with
  | EmptyString => false
  | String _ hay' => contains needle hay'
  end.

(** [s.split(sep)] for a one-character separator: the pieces between
    the separators, never an empty list. *)
Fixpoint split (sep : ascii) (s : string) : list string :=
  match s with
  | EmptyString => [EmptyString]
  | String c s' =>
      if Ascii.eqb c sep then EmptyString :: split sep s'
      else match split sep s' with
           | piece :: pieces => String c piece :: pieces
           | [] => [String c EmptyString]
           end
  end.

(** [l[-1]] on a list of strings that is known not to be empty. *)
Definition last_item (l : list string) : string := List.last l EmptyString.

(** *** [int(s)] on text *)

Fixpoint lstrip (s : string) : string :=
  match s with
  | EmptyString => EmptyString
  | String c s' => if is_int_space c then lstrip s' else s
  end.

Definition strip (s : string) : string :=
  String.rev (lstrip (String.rev (lstrip s))).

Definition digit_value (c : ascii) : Z := Z.of_N (code c) - 48.

(** The digits of a decimal literal; a single underscore may separate
    two digits.  [prev] is the character just read. *)
Fixpoint int_digits (prev : option ascii) (acc : Z) (s : string) : option Z :=
  match s with
  | EmptyString =>
      match prev with
      | Some p => if is_char 95 p then None else Some acc
      | None => None
      end
  | String c s' =>
      if is_digit c then int_digits (Some c) (10 * acc + digit_value c) s'
      else if is_char 95 c then
        match prev with
        | Some p => if is_char 95 p then None else int_digits (Some c) acc s'
        | None => None
        end
      else None
  end.

(** [int(s)]: [None] stands for [ValueError]. *)
Definition parse_int (s : string) : option Z :=
  match strip s with
  | String "+" body => int_digits None 0 body
  | String "-" body => Z.opp <$> int_digits None 0 body
  | body => int_digits None 0 body
  end.

(** [str(n)] for an integer. *)
Definition str_of_Z (n : Z) : string :=
  NilZero.string_of_int (Z.to_int n).

(** *** The fragment of [re] the source uses

    Every pattern of the source is a sequence of one-character items and
    [\b] assertions, so a match at a position is decided left to right
    without backtracking. *)

Inductive item :=
  | Lit (c : ascii)                 (* a literal character *)
  | Class (p : ascii -> bool)       (* [\d], [[3-9]], [[/-]] *)
  | Boundary.                       (* [\b] *)

Definition regex := list item.

Definition word_opt (c : option ascii) : bool :=
  match c with Some c => is_word c | None => false end.

Definition head (s : string) : option ascii :=
  match s with EmptyString => None | String c _ => Some c end.

(** [match_here r prev s]: the text matched by [r] at the start of [s],
    where [prev] is the character before that position. *)
Fixpoint match_here (r : regex) (prev : option ascii) (s : string)
  : option string :=
  match r with
  | [] => Some EmptyString
  | Boundary :: r' =>
      if xorb (word_opt prev) (word_opt (head s))
      then match_here r' prev s else None
  | Lit c :: r' =>
      match s with
      | String d s' =>
          if Ascii.eqb c d then String d <$> match_here r' (Some d) s' else None
      | EmptyString => None
      end
  | Class p :: r' =>
      match s with
      | String d s' =>
          if p d then String d <$> match_here r' (Some d) s' else None
      | EmptyString => None
      end
  end.

(** [re.search(r, s) is not None]. *)
Fixpoint search_from (r : regex) (prev : option ascii) (s : string) : bool :=
  match match_here r prev s with
  | Some _ => true
  | None =>
      match s with
      | EmptyString => false
      | String c s' => search_from r (Some c) s'
      end
  end.

Definition search (r : regex) (s : string) : bool := search_from r None s.

(** [re.findall(r, s)] for a pattern whose only group spans the whole
    match: the matches from left to right, none overlapping another.
    [skip] counts the characters of the last match still to be passed. *)
Fixpoint findall_from (r : regex) (skip : nat) (prev : option ascii)
    (s : string) : list string :=
  match skip with
  | S k =>
      match s with
      | EmptyString => []
      | String c s' => findall_from r k (Some c) s'
      end
  | O =>
      match s with
      | EmptyString =>
          match match_here r prev s with
          | Some m => [m]
          | None => []
          end
      | String c s' =>
          match match_here r prev s with
          | Some m => m :: findall_from r (Nat.pred (String.length m)) (Some c) s'
          | None => findall_from r O (Some c) s'
          end
      end
  end.

Definition findall (r : regex) (s : string) : list string :=
  findall_from r O None s.

Definition lits (s : string) : regex := map Lit (list_ascii_of_string s).

End Py.

Import Py.

(** ** Values, exceptions and the monad of the methods *)

(** The values a configuration option can hold: the types of the
    documented options, and [None]. *)
Inductive value :=
  | VNone
  | VBool (b : bool)
  | VInt (n : Z)
  | VFloat (x : float)
  | VStr (s : string).

(** Truth value of an object in an [if]. *)
Definition truthy (v : value) : bool :=
  match v with
  | VNone => false
  | VBool b => b
  | VInt n => negb (n =? 0)
  | VFloat x => negb (PrimFloat.eqb x 0%float)
  | VStr s => negb (String.eqb s "")
  end.

Inductive exn :=
  | ValueError                 (* [int()] on text that is no decimal literal *)
  | AttributeError             (* [.split] on an object that is not text *)
  | KeyError (key : string)    (* [d[key]] on a missing key *)
  | External (name : string).  (* raised inside a collaborator *)

Inductive outcome (A : Type) :=
  | Return (a : A)
  | Raise (e : exn).
Arguments Return {A} a.
Arguments Raise {A} e.

(** A computation over a mutable state [S] that returns or raises; what
    was written to the state before an exception stays written. *)
Definition M (S A : Type) : Type := S -> outcome A * S.

Definition ret {S A} (a : A) : M S A := fun s => (Return a, s).

Definition raise {S A} (e : exn) : M S A := fun s => (Raise e, s).

Definition bind {S A B} (m : M S A) (k : A -> M S B) : M S B :=
  fun s =>
    match m s with
    | (Return a, s') => k a s'
    | (Raise e, s') => (Raise e, s')
    end.

Definition lift {S A} (o : outcome A) : M S A := fun s => (o, s).

Definition gets {S A} (f : S -> A) : M S A := fun s => (Return (f s), s).

Definition modify {S} (f : S -> S) : M S unit := fun s => (Return tt, f s).

Declare Scope py_scope.
Delimit Scope py_scope with py.
Notation "'do' x <- m ; k" := (bind m (fun x => k))
  (at level 10, x name, m at level 100, k at level 200) : py_scope.
Notation "m ;; k" := (bind m (fun _ => k))
  (at level 100, k at level 200, right associativity) : py_scope.
#[local] Open Scope py_scope.

(** [for x in l: body x], where the body does not leave the loop. *)
Fixpoint for_each {S A} (l : list A) (body : A -> M S unit) : M S unit :=
  match l with
  | [] => ret tt
  | x :: l' => body x ;; for_each l' body
  end.

(** A loop whose body updates a local accumulator. *)
Fixpoint for_acc {S A B} (l : list A) (acc : B) (body : A -> B -> M S B)
  : M S B :=
  match l with
  | [] => ret acc
  | x :: l' => do acc' <- body x acc; for_acc l' acc' body
  end.

(** [int(s)] on text. *)
Definition py_int {S} (s : string) : M S Z :=
  match parse_int s with
  | Some n => ret n
  | None => raise ValueError
  end.

(** [v.split("-")]: only text has the method. *)
Definition py_split {S} (v : value) (sep : ascii) : M S (list string) :=
  match v with
  | VStr s => ret (split sep s)
  | _ => raise AttributeError
  end.

(** [d[key]]. *)
Definition getitem {S} (d : gmap string value) (key : string) : M S value :=
  match d !! key with
  | Some v => ret v
  | None => raise (KeyError key)
  end.

Definition nl : string := String (ascii_of_nat 10) EmptyString.

(** ** The world outside the process *)

Record Document := {
  page_content : string;
  metadata : gmap string value
}.

(** The calls that leave the process. *)
Inductive call :=
  | CallLoad (pdf_path : string)
  | CallEmbed (chunks : list Document)
  | CallInvoke (query : string).

Record World := {
  stdout : list string;   (* one entry for each [print] *)
  calls : list call       (* the calls made so far, oldest first *)
}.

Definition print (line : string) : M World unit :=
  modify (fun w => {| stdout := stdout w ++ [line]; calls := calls w |}).

(** A call to a collaborator: its answer may depend on the calls made
    before; the call is recorded whether it returns or raises. *)
Definition remote {A} (c : call) (answer : list call -> outcome A)
  : M World A :=
  fun w => (answer (calls w), {| stdout := stdout w; calls := calls w ++ [c] |}).

Record OpenAIEmbeddings := {
  embeddings_model : string;
  embeddings_api_key : option string
}.

Record RecursiveCharacterTextSplitter := {
  chunk_size : Z;
  chunk_overlap : Z
}.

Record ChatOpenAI := {
  model : value;
  temperature : value;
  openai_api_key : option string
}.

Record PromptTemplate := {
  template : string;
  input_variables : list string
}.

Record QAResult := {
  result : string;
  source_documents : list Document
}.

(** The libraries and services the repository calls but does not
    contain.  The three object types are opaque; the constructors that
    only store their arguments are the records above, and the library's
    check of those arguments is a field here. *)
Class Collaborators := {
  VectorStore : Type;
  Retriever : Type;
  RetrievalQA : Type;
  getenv : string -> option string;
  float_str : float -> string;
  check_embeddings : OpenAIEmbeddings -> outcome unit;
  check_chat_model : ChatOpenAI -> outcome unit;
  PyPDFLoader_load : string -> list call -> outcome (list Document);
  splitter_split_documents :
    RecursiveCharacterTextSplitter -> list Document -> outcome (list Document);
  FAISS_from_documents :
    list Document -> OpenAIEmbeddings -> list call -> outcome VectorStore;
  as_retriever : VectorStore -> gmap string value -> outcome Retriever;
  from_chain_type :
    ChatOpenAI -> string -> Retriever -> gmap string PromptTemplate -> bool ->
    outcome RetrievalQA;
  invoke : RetrievalQA -> string -> list call -> outcome QAResult
}.

(** [str(v)], as an f-string formats a value. *)
Definition py_str `{Collaborators} (v : value) : string :=
  match v with
  | VNone => "None"
  | VBool true => "True"
  | VBool false => "False"
  | VInt n => str_of_Z n
  | VFloat x => float_str x
  | VStr s => s
  end.

(** ** document_processor.py *)

Module DocumentProcessor.
Section Methods.
Context `{Collaborators}.

Record t := {
  embeddings : OpenAIEmbeddings;
  text_splitter : RecursiveCharacterTextSplitter
}.

(** [DocumentProcessor()] *)
Definition init {S} : M S t :=
  let embeddings :=
    {| embeddings_model := "text-embedding-3-small";
       embeddings_api_key := getenv "OPENAI_API_KEY" |} in
  lift (check_embeddings embeddings) ;;
  let text_splitter := {| chunk_size := 1000; chunk_overlap := 200 |} in
  ret {| embeddings := embeddings; text_splitter := text_splitter |}.

Definition load_document (self : t) (pdf_path : string)
  : M World (list Document) :=
  do documents <- remote (CallLoad pdf_path) (PyPDFLoader_load pdf_path);
  print ("Loaded " +:+ str_of_Z (Z.of_nat (length documents)) +:+ " pages") ;;
  ret documents.

Definition split_documents (self : t) (documents : list Document)
  : M World (list Document) :=
  do chunks <- lift (splitter_split_documents (text_splitter self) documents);
  print ("Created " +:+ str_of_Z (Z.of_nat (length chunks)) +:+ " chunks") ;;
  ret chunks.

Definition create_embeddings (self : t) (chunks : list Document)
  : M World VectorStore :=
  do vectorstore <-
    remote (CallEmbed chunks) (FAISS_from_documents chunks (embeddings self));
  print "Embeddings created successfully" ;;
  ret vectorstore.

End Methods.
End DocumentProcessor.

(** ** qa_system.py *)

Module QASystem.
Section Methods.
Context `{Collaborators}.

Record t := {
  config : gmap string value;
  show_validation : value;
  verbose : value;
  data_year : value;
  processor : DocumentProcessor.t;
  llm : ChatOpenAI;
  vectorstore : option VectorStore;
  qa_chain : option RetrievalQA
}.

(** The state a method runs in: the object and the world. *)
Definition Sys : Type := t * World.

Definition attr {A} (field : t -> A) : M Sys A := gets (fun s => field (fst s)).

Definition in_world {A} (m : M World A) : M Sys A :=
  fun s => let (r, w) := m (snd s) in (r, (fst s, w)).

Definition set_vectorstore (v : VectorStore) : M Sys unit :=
  modify (fun s =>
    ({| config := config (fst s); show_validation := show_validation (fst s);
        verbose := verbose (fst s); data_year := data_year (fst s);
        processor := processor (fst s); llm := llm (fst s);
        vectorstore := Some v; qa_chain := qa_chain (fst s) |}, snd s)).

Definition set_qa_chain (c : RetrievalQA) : M Sys unit :=
  modify (fun s =>
    ({| config := config (fst s); show_validation := show_validation (fst s);
        verbose := verbose (fst s); data_year := data_year (fst s);
        processor := processor (fst s); llm := llm (fst s);
        vectorstore := vectorstore (fst s); qa_chain := Some c |}, snd s)).

Definition default_config : gmap string value :=
  <["show_validation" := VBool true]>
  (<["verbose" := VBool true]>
  (<["llm_model" := VStr "gpt-3.5-turbo"]>
  (<["temperature" := VFloat 0.1%float]>
  (<["retrieval_k" := VInt 3]>
  (<["data_year" := VStr "2019-20"]> ∅))))).

(** [{**default_config, **(config or {})}]: the keys of [config] win. *)
Definition merge_config (config : option (gmap string value))
  : gmap string value :=
  match config with
  | Some c => c ∪ default_config
  | None => default_config
  end.

(** [QASystem(config)] *)
Definition init (config : option (gmap string value)) : M World t :=
  let self_config := merge_config config in
  do self_show_validation <- getitem self_config "show_validation";
  do self_verbose <- getitem self_config "verbose";
  do self_data_year <- getitem self_config "data_year";
  do self_processor <- DocumentProcessor.init;
  do llm_model <- getitem self_config "llm_model";
  do llm_temperature <- getitem self_config "temperature";
  let self_llm :=
    {| model := llm_model; temperature := llm_temperature;
       openai_api_key := getenv "OPENAI_API_KEY" |} in
  lift (check_chat_model self_llm) ;;
  ret {| config := self_config;
         show_validation := self_show_validation;
         verbose := self_verbose;
         data_year := self_data_year;
         processor := self_processor;
         llm := self_llm;
         vectorstore := None;
         qa_chain := None |}.

Definition when {S} (c : bool) (m : M S unit) : M S unit :=
  if c then m else ret tt.

Definition prompt_text (data_year : string) : string :=
  "You are a Fantasy Premier League (FPL) expert assistant. " +:+ nl +:+
  "Use the following pieces of context to answer the question about player data, teams, positions, costs, and points." +:+ nl +:+
  nl +:+
  "IMPORTANT: The data you have is from the " +:+ data_year +:+ " FPL season only. " +:+ nl +:+
  "If asked about other seasons or current data, clearly state that your information is limited to the " +:+ data_year +:+ " season." +:+ nl +:+
  nl +:+
  "Context: {context}" +:+ nl +:+
  nl +:+
  "Question: {question}" +:+ nl +:+
  nl +:+
  "Please provide a helpful and accurate answer based on the FPL data provided. " +:+ nl +:+
  "If the question asks about data outside the " +:+ data_year +:+ " season, clearly state this limitation. " +:+ nl +:+
  "Include specific player names, costs, and points when relevant." +:+ nl +:+
  nl +:+
  "Answer:".

Definition setup_document (pdf_path : string) : M Sys unit :=
  do verbose1 <- attr verbose;
  when (truthy verbose1) (in_world (print "Setting up document processing...")) ;;
  do processor1 <- attr processor;
  do documents <- in_world (DocumentProcessor.load_document processor1 pdf_path);
  do processor2 <- attr processor;
  do chunks <- in_world (DocumentProcessor.split_documents processor2 documents);
  do verbose2 <- attr verbose;
  when (truthy verbose2)
    (in_world (print " Creating embeddings (this will use OpenAI credits)...")) ;;
  do processor3 <- attr processor;
  do store <- in_world (DocumentProcessor.create_embeddings processor3 chunks);
  set_vectorstore store ;;
  do year <- attr data_year;
  let prompt_template := prompt_text (py_str year) in
  let PROMPT :=
    {| template := prompt_template;
       input_variables := ["context"; "question"] |} in
  do self_llm <- attr llm;
  do self_vectorstore <- attr vectorstore;
  do retriever <-
    match self_vectorstore with
    | Some v =>
        do self_config <- attr config;
        do k <- getitem self_config "retrieval_k";
        lift (as_retriever v (<["k" := k]> ∅))
    | None => raise AttributeError
    end;
  do chain <-
    lift (from_chain_type self_llm "stuff" retriever
            (<["prompt" := PROMPT]> ∅) true);
  set_qa_chain chain ;;
  do verbose3 <- attr verbose;
  when (truthy verbose3) (in_world (print "✅ Q&A system ready!")).

(** [r'\b(20\d{2})\b'] *)
Definition year_re : regex :=
  [Boundary; Lit "2"; Lit "0"; Class is_digit; Class is_digit; Boundary].

Definition recent_patterns : list regex :=
  [ lits "202" ++ [Class (in_range 51 57)];
    lits "2024" ++ [Class (fun c => is_char 47 c || is_char 45 c)] ++
      lits "202" ++ [Class (in_range 53 57)];
    lits "current";
    [Boundary] ++ lits "now" ++ [Boundary];
    [Boundary] ++ lits "today" ++ [Boundary];
    [Boundary] ++ lits "latest" ++ [Boundary];
    [Boundary] ++ lits "recent" ++ [Boundary];
    [Boundary] ++ lits "this season" ++ [Boundary] ].

Definition modern_players : list string :=
  ["haaland"; "nunez"; "antony"; "casemiro"; "tchouameni"].

(** The loop over [recent_patterns]: the first pattern found appends the
    warning and leaves the loop. *)
Fixpoint recent_loop (patterns : list regex) (question : string)
    (warnings : list string) : M Sys (list string) :=
  match patterns with
  | [] => ret warnings
  | pattern :: rest =>
      if search pattern (lower question) then
        do label <- attr data_year;
        ret (warnings ++
             ["Question asks about current/recent data, but our dataset is from "
              +:+ py_str label])
      else recent_loop rest question warnings
  end.

(** The body of [for year in years]. *)
Definition year_body (year : string) (warnings : list string)
  : M Sys (list string) :=
  do y <- py_int year;
  do label <- attr data_year;
  do parts <- py_split label "-";
  do last_year <- py_int (last_item parts);
  if y >? last_year then
    do label <- attr data_year;
    ret (warnings ++
         ["Question mentions " +:+ year +:+ ", but our data is from "
          +:+ py_str label])
  else ret warnings.

(** The body of [for player in modern_players]. *)
Definition player_body (question : string) (player : string)
    (warnings : list string) : M Sys (list string) :=
  if contains player (lower question) then
    do label <- attr data_year;
    ret (warnings ++
         ["Question asks about " +:+ title player +:+
          ", who likely wasn't in the " +:+ py_str label +:+ " season"])
  else ret warnings.

Definition validate_question (question : string) : M Sys (list string) :=
  let warnings := [] in
  let years := findall year_re question in
  do warnings <- for_acc years warnings year_body;
  do warnings <- recent_loop recent_patterns question warnings;
  do warnings <- for_acc modern_players warnings (player_body question);
  ret warnings.

(** Truth value of a list. *)
Definition nonempty {A} (l : list A) : bool :=
  match l with [] => false | _ :: _ => true end.

Definition ask_question (question : string) : M Sys string :=
  do chain <- attr qa_chain;
  match chain with
  | None => ret "Please setup a document first!"
  | Some _ =>
      do show1 <- attr show_validation;
      (if truthy show1 then
         do warnings <- validate_question question;
         if nonempty warnings then
           in_world (print (nl +:+ " DATA SCOPE WARNINGS:")) ;;
           for_each warnings (fun warning =>
             in_world (print ("   - " +:+ warning))) ;;
           do label <- attr data_year;
           in_world (print ("    Our data covers: " +:+ py_str label +:+
                            " FPL season only" +:+ nl))
         else ret tt
       else ret tt) ;;
      do verbose1 <- attr verbose;
      when (truthy verbose1)
        (in_world (print (nl +:+ " Question: " +:+ question)) ;;
         in_world (print "Searching for relevant information...")) ;;
      do chain2 <- attr qa_chain;
      do res <-
        match chain2 with
        | Some c => in_world (remote (CallInvoke question) (invoke c question))
        | None => raise AttributeError
        end;
      let answer := result res in
      in_world (print ("Answer: " +:+ answer)) ;;
      do show2 <- attr show_validation;
      (if truthy show2 then
         do again <- validate_question question;
         if nonempty again then
           do label <- attr data_year;
           in_world (print (nl +:+ "REMINDER: This answer is based on " +:+
                            py_str label +:+ " data only!"))
         else ret tt
       else ret tt) ;;
      do verbose2 <- attr verbose;
      when (truthy verbose2)
        (in_world (print (nl +:+ "Based on " +:+
                          str_of_Z (Z.of_nat (length (source_documents res))) +:+
                          " document chunks"))) ;;
      ret answer
  end.

End Methods.
End QASystem.

(** ** A mock of the collaborators

    Every service is reachable: the loader finds a one-page document,
    the splitter returns the pages as chunks, and the chain answers
    every query with the same text. *)

Definition mock_page : Document :=
  {| page_content := "Salah MID Liverpool 12.5 233"; metadata := ∅ |}.

Definition mock : Collaborators := {|
  VectorStore := list Document;
  Retriever := list Document * gmap string value;
  RetrievalQA := ChatOpenAI * (list Document * gmap string value);
  getenv := fun _ => Some "sk-test";
  float_str := fun _ => "0.1";
  check_embeddings := fun _ => Return tt;
  check_chat_model := fun _ => Return tt;
  PyPDFLoader_load := fun _ _ => Return [mock_page];
  splitter_split_documents := fun _ documents => Return documents;
  FAISS_from_documents := fun chunks _ _ => Return chunks;
  as_retriever := fun v kwargs => Return (v, kwargs);
  from_chain_type := fun llm _ retriever _ _ => Return (llm, retriever);
  invoke := fun c _ _ =>
    Return {| result := "Mohamed Salah"; source_documents := fst (snd c) |}
|}.

Definition empty_world : World := {| stdout := []; calls := [] |}.

(** ** The contribution of each check of [validate_question]

    The lists the theorems compare the method's result with. *)

Section Warnings.
Context `{Collaborators}.

(** [int(self.data_year.split("-")[-1])] *)
Definition terminal_year (label : value) : outcome Z :=
  match label with
  | VStr s =>
      match parse_int (last_item (split "-" s)) with
      | Some n => Return n
      | None => Raise ValueError
      end
  | _ => Raise AttributeError
  end.

Definition year_warning (label : value) (year : string) : string :=
  "Question mentions " +:+ year +:+ ", but our data is from " +:+ py_str label.

Definition recency_warning (label : value) : string :=
  "Question asks about current/recent data, but our dataset is from "
  +:+ py_str label.

Definition player_warning (label : value) (player : string) : string :=
  "Question asks about " +:+ title player +:+ ", who likely wasn't in the "
  +:+ py_str label +:+ " season".

(** [int(year) > t] *)
Definition beyond (t : Z) (year : string) : bool :=
  match parse_int year with
  | Some y => y >? t
  | None => false
  end.

Definition year_warnings (label : value) (t : Z) (question : string)
  : list string :=
  map (year_warning label) (List.filter (beyond t) (findall QASystem.year_re question)).

Definition recency_match (question : string) : bool :=
  existsb (fun pattern => search pattern (lower question)) QASystem.recent_patterns.

Definition recency_warnings (label : value) (question : string)
  : list string :=
  if recency_match question then [recency_warning label] else [].

Definition named (question : string) (player : string) : bool :=
  contains player (lower question).

Definition player_warnings (label : value) (question : string)
  : list string :=
  map (player_warning label) (List.filter (named question) QASystem.modern_players).

(** The result of [validate_question] as a function of the label and the
    question. *)
Definition validate_result (label : value) (question : string)
  : outcome (list string) :=
  match findall QASystem.year_re question with
  | [] => Return (recency_warnings label question ++
                  player_warnings label question)
  | _ :: _ =>
      match terminal_year label with
      | Return t => Return (year_warnings label t question ++
                            recency_warnings label question ++
                            player_warnings label question)
      | Raise e => Raise e
      end
  end.

End Warnings.

(** The three kinds of warning are told apart by how the text starts. *)
Definition is_year_warning (w : string) : bool :=
  startswith "Question mentions " w.

Definition is_recency_warning (w : string) : bool :=
  startswith "Question asks about current/recent data, " w.

Definition is_player_warning (w : string) : bool :=
  startswith "Question asks about " w && negb (is_recency_warning w).

(** A four-character token [20dd]. *)
Definition year_token (m : string) : Prop :=
  exists d1 d2, m = String "2" (String "0" (String d1 (String d2 EmptyString)))
                /\ is_digit d1 = true /\ is_digit d2 = true.

(** ** Vocabulary of the statements on the pipeline *)

Section States.
Context `{Collaborators}.

(** The fields [setup_document] is not meant to touch. *)
Definition same_settings (a b : QASystem.t) : Prop :=
  QASystem.config a = QASystem.config b /\
  QASystem.show_validation a = QASystem.show_validation b /\
  QASystem.verbose a = QASystem.verbose b /\
  QASystem.data_year a = QASystem.data_year b /\
  QASystem.llm a = QASystem.llm b /\
  QASystem.processor a = QASystem.processor b.

(** The object without its index and chain. *)
Definition forget (self : QASystem.t) : QASystem.t :=
  {| QASystem.config := QASystem.config self;
     QASystem.show_validation := QASystem.show_validation self;
     QASystem.verbose := QASystem.verbose self;
     QASystem.data_year := QASystem.data_year self;
     QASystem.processor := QASystem.processor self;
     QASystem.llm := QASystem.llm self;
     QASystem.vectorstore := None;
     QASystem.qa_chain := None |}.

(** A computation that only prints: it returns, keeps the object and
    makes no call. *)
Definition quiet (m : M QASystem.Sys unit) : Prop :=
  forall self w, exists out,
    m (self, w) = (Return tt, (self, {| stdout := out; calls := calls w |})).

(** The effective value of an option. *)
Definition effective (config : option (gmap string value)) (key : string)
  : option value :=
  QASystem.merge_config config !! key.

(** The processor [DocumentProcessor()] builds. *)
Definition built_processor : DocumentProcessor.t :=
  {| DocumentProcessor.embeddings :=
       {| embeddings_model := "text-embedding-3-small";
          embeddings_api_key := getenv "OPENAI_API_KEY" |};
     DocumentProcessor.text_splitter :=
       {| chunk_size := 1000; chunk_overlap := 200 |} |}.

End States.

(** The pipeline [QASystem()] builds against the mock. *)
Definition mock_pipeline (config : option (gmap string value))
  : outcome (@QASystem.t mock) :=
  fst (@QASystem.init mock config empty_world).

(** The state after [QASystem(config)] and
    [setup_document("documents/fpl.pdf")] against the mock. *)
Definition mock_ready (config : option (gmap string value))
  : outcome (@QASystem.Sys mock) :=
  match @QASystem.init mock config empty_world with
  | (Return self, w) =>
      match @QASystem.setup_document mock "documents/fpl.pdf" (self, w) with
      | (Return _, s) => Return s
      | (Raise e, _) => Raise e
      end
  | (Raise e, _) => Raise e
  end.

(** [ask_question(question)] in that state: the outcome and the world
    it leaves. *)
Definition mock_ask (config : option (gmap string value)) (question : string)
  : outcome string * World :=
  match mock_ready config with
  | Return s =>
      let (r, s') := @QASystem.ask_question mock question s in (r, snd s')
  | Raise e => (Raise e, empty_world)
  end.

Definition returned {A} (o : outcome A) : bool :=
  match o with Return _ => true | Raise _ => false end.

(** The object [QASystem()] builds against the mock, field by field. *)
Definition mock_default : @QASystem.t mock :=
  {| QASystem.config := QASystem.default_config;
     QASystem.show_validation := VBool true;
     QASystem.verbose := VBool true;
     QASystem.data_year := VStr "2019-20";
     QASystem.processor :=
       {| DocumentProcessor.embeddings :=
            {| embeddings_model := "text-embedding-3-small";
               embeddings_api_key := Some "sk-test" |};
          DocumentProcessor.text_splitter :=
            {| chunk_size := 1000; chunk_overlap := 200 |} |};
     QASystem.llm :=
       {| model := VStr "gpt-3.5-turbo"; temperature := VFloat 0.1%float;
          openai_api_key := Some "sk-test" |};
     QASystem.vectorstore := None;
     QASystem.qa_chain := None |}.

(** Configurations a caller can pass. *)
Definition retrieval_5 : gmap string value := {["retrieval_k" := VInt 5]}.

Definition model_gpt4 : gmap string value := {["model" := VStr "gpt-4"]}.

Definition slash_label : gmap string value :=
  {["data_year" := VStr "2019/20"]}.

Definition slash_label_silent : gmap string value :=
  <["show_validation" := VBool false]> slash_label.

(** ** The scripts at the end of the two modules

    [test_document_processing] and [test_qa_system] look for a PDF in
    the folder "documents" and drive the objects above.  Paths are
    joined as on a POSIX system. *)

(** [s.endswith(suffix)] *)
Fixpoint endswith (suffix s : string) : bool :=
  String.eqb s suffix ||
  match s with
  | EmptyString => false
  | String _ s' => endswith suffix s'
  end.

(** [s * n] *)
Fixpoint repeat_str (s : string) (n : nat) : string :=
  match n with
  | O => EmptyString
  | S n' => s +:+ repeat_str s n'
  end.

(** [s[:n]] *)
Fixpoint take (n : nat) (s : string) : string :=
  match n, s with
  | S n', String c s' => String c (take n' s')
  | _, _ => EmptyString
  end.

(** [os.path.join(a, b)] *)
Definition path_join (a b : string) : string :=
  if startswith "/" b then b
  else if String.eqb a "" || endswith "/" a then a +:+ b
  else a +:+ "/" +:+ b.

(** [enumerate(l, start)] *)
Fixpoint enumerate {A} (start : Z) (l : list A) : list (Z * A) :=
  match l with
  | [] => []
  | x :: l' => (start, x) :: enumerate (start + 1) l'
  end.

(** The directory listing, the one thing the scripts ask of the file
    system themselves. *)
Class Files := {
  os_listdir : string -> outcome (list string)
}.

(** A script can also fail on an index of its own. *)
Inductive script_exn :=
  | IndexError                (* [l[0]] on an empty list *)
  | Propagated (e : exn).     (* raised by a method it called *)

Inductive script_outcome (A : Type) :=
  | Done (a : A)
  | Failed (e : script_exn).
Arguments Done {A} a.
Arguments Failed {A} e.

Definition Script (A : Type) : Type := World -> script_outcome A * World.

Definition sret {A} (a : A) : Script A := fun w => (Done a, w).

Definition sraise {A} (e : script_exn) : Script A := fun w => (Failed e, w).

Definition sbind {A B} (m : Script A) (k : A -> Script B) : Script B :=
  fun w =>
    match m w with
    | (Done a, w') => k a w'
    | (Failed e, w') => (Failed e, w')
    end.

(** A method call inside a script. *)
Definition call_method {A} (m : M World A) : Script A :=
  fun w =>
    match m w with
    | (Return a, w') => (Done a, w')
    | (Raise e, w') => (Failed (Propagated e), w')
    end.

Declare Scope script_scope.
Delimit Scope script_scope with script.
Notation "'do' x <- m ; k" := (sbind m (fun x => k))
  (at level 10, x name, m at level 100, k at level 200) : script_scope.
Notation "m ;; k" := (sbind m (fun _ => k))
  (at level 100, k at level 200, right associativity) : script_scope.

Module Scripts.
Section Scripts.
Context `{Collaborators} `{Files}.

(** The methods of a local object, run one after the other on it. *)
Definition on_object {A} (self : QASystem.t) (m : M QASystem.Sys A)
  : M World A :=
  fun w => let (r, s) := m (self, w) in (r, snd s).

(** [[f for f in os.listdir(folder) if f.endswith('.pdf')]] *)
Definition list_pdfs (documents_folder : string) : M World (list string) :=
  do files <- lift (os_listdir documents_folder);
  ret (List.filter (endswith ".pdf") files).

(** [test_document_processing()] in document_processor.py *)
Definition test_document_processing
  : Script (option (DocumentProcessor.t * list Document)) :=
  (do processor <- call_method DocumentProcessor.init;
   let documents_folder := "documents" in
   do pdf_files <- call_method (list_pdfs documents_folder);
   match pdf_files with
   | [] =>
       call_method (print "Not found") ;;
       sret None
   | first :: _ =>
       let pdf_path := path_join documents_folder first in
       call_method (print ("Using PDF:" +:+ first)) ;;
       do documents <-
         call_method (DocumentProcessor.load_document processor pdf_path);
       do chunks <-
         call_method (DocumentProcessor.split_documents processor documents);
       call_method (print (nl +:+ " Sample chunk (first 200 characters):")) ;;
       call_method (print (repeat_str "-" 50)) ;;
       do chunk0 <-
         match chunks with
         | c :: _ => sret c
         | [] => sraise IndexError
         end;
       call_method (print (take 200 (page_content chunk0) +:+ "...")) ;;
       call_method (print (repeat_str "-" 50)) ;;
       call_method
         (print ("Total chunks: " +:+ str_of_Z (Z.of_nat (length chunks)))) ;;
       sret (Some (processor, chunks))
   end)%script.

Definition test_config : gmap string value :=
  <["show_validation" := VBool true]>
  (<["verbose" := VBool true]>
  (<["llm_model" := VStr "gpt-4"]>
  (<["temperature" := VFloat 0.2%float]>
  (<["retrieval_k" := VInt 5]>
  (<["data_year" := VStr "2019-20"]> ∅))))).

Definition test_questions : list string :=
  [ "What is the most expensive player and their cost?";
    "List some Arsenal players and their positions";
    "What is Haaland's price in 2025/2026 season?";
    "Who is the best Manchester United player in 2024/2025 season?";
    "Who are the goalkeepers in the data?" ].

(** The body of [for i, question in enumerate(test_questions, 1)]. *)
Definition test_body (item : Z * string) : M QASystem.Sys unit :=
  let (i, question) := item in
  QASystem.in_world (print (nl +:+ "TEST " +:+ str_of_Z i +:+ "/5:")) ;;
  QASystem.in_world (print (repeat_str "-" 60)) ;;
  (do _ <- QASystem.ask_question question; ret tt) ;;
  QASystem.in_world (print (repeat_str "-" 60)).

(** [test_qa_system()] in qa_system.py *)
Definition test_qa_system : M World unit :=
  let config := test_config in
  do qa_system <- QASystem.init (Some config);
  let documents_folder := "documents" in
  do pdf_files <- list_pdfs documents_folder;
  match pdf_files with
  | [] => print "No PDF files found in documents folder"
  | first :: _ =>
      let pdf_path := path_join documents_folder first in
      on_object qa_system
        (QASystem.setup_document pdf_path ;;
         QASystem.in_world (print (nl +:+ repeat_str "=" 60)) ;;
         QASystem.in_world (print "TESTING Q&A SYSTEM") ;;
         QASystem.in_world (print (repeat_str "=" 60)) ;;
         for_each (enumerate 1 test_questions) test_body)
  end.

End Scripts.
End Scripts.

(** A folder for the mock: two PDFs among other files. *)
Definition mock_files : Files := {|
  os_listdir := fun _ => Return ["notes.txt"; "fpl.pdf"; "old.PDF"; "b.pdf"]
|}.

(** A folder without a PDF. *)
Definition no_pdf_files : Files := {|
  os_listdir := fun _ => Return ["notes.txt"; "old.PDF"]
|}.

(** A mock whose chain is out of reach: every invocation raises. *)
Definition mock_down : Collaborators := {|
  VectorStore := list Document;
  Retriever := list Document * gmap string value;
  RetrievalQA := ChatOpenAI * (list Document * gmap string value);
  getenv := fun _ => Some "sk-test";
  float_str := fun _ => "0.1";
  check_embeddings := fun _ => Return tt;
  check_chat_model := fun _ => Return tt;
  PyPDFLoader_load := fun _ _ => Return [mock_page];
  splitter_split_documents := fun _ documents => Return documents;
  FAISS_from_documents := fun chunks _ _ => Return chunks;
  as_retriever := fun v kwargs => Return (v, kwargs);
  from_chain_type := fun llm _ retriever _ _ => Return (llm, retriever);
  invoke := fun _ _ _ => Raise (External "APIConnectionError")
|}.

(** A mock without the document: the loader raises. *)
Definition mock_missing : Collaborators := {|
  VectorStore := list Document;
  Retriever := list Document * gmap string value;
  RetrievalQA := ChatOpenAI * (list Document * gmap string value);
  getenv := fun _ => Some "sk-test";
  float_str := fun _ => "0.1";
  check_embeddings := fun _ => Return tt;
  check_chat_model := fun _ => Return tt;
  PyPDFLoader_load := fun _ _ => Raise (External "ValueError");
  splitter_split_documents := fun _ documents => Return documents;
  FAISS_from_documents := fun chunks _ _ => Return chunks;
  as_retriever := fun v kwargs => Return (v, kwargs);
  from_chain_type := fun llm _ retriever _ _ => Return (llm, retriever);
  invoke := fun c _ _ =>
    Return {| result := "Mohamed Salah"; source_documents := fst (snd c) |}
|}.

(** A mock on which no chain can be built. *)
Definition mock_no_chain : Collaborators := {|
  VectorStore := list Document;
  Retriever := list Document * gmap string value;
  RetrievalQA := ChatOpenAI * (list Document * gmap string value);
  getenv := fun _ => Some "sk-test";
  float_str := fun _ => "0.1";
  check_embeddings := fun _ => Return tt;
  check_chat_model := fun _ => Return tt;
  PyPDFLoader_load := fun _ _ => Return [mock_page];
  splitter_split_documents := fun _ documents => Return documents;
  FAISS_from_documents := fun chunks _ _ => Return chunks;
  as_retriever := fun v kwargs => Return (v, kwargs);
  from_chain_type := fun _ _ _ _ _ => Raise (External "ValidationError");
  invoke := fun c _ _ =>
    Return {| result := "Mohamed Salah"; source_documents := fst (snd c) |}
|}.

(** A mock whose document has no text: the splitter makes no chunk. *)
Definition mock_blank : Collaborators := {|
  VectorStore := list Document;
  Retriever := list Document * gmap string value;
  RetrievalQA := ChatOpenAI * (list Document * gmap string value);
  getenv := fun _ => Some "sk-test";
  float_str := fun _ => "0.1";
  check_embeddings := fun _ => Return tt;
  check_chat_model := fun _ => Return tt;
  PyPDFLoader_load := fun _ _ => Return [mock_page];
  splitter_split_documents := fun _ _ => Return [];
  FAISS_from_documents := fun chunks _ _ => Return chunks;
  as_retriever := fun v kwargs => Return (v, kwargs);
  from_chain_type := fun llm _ retriever _ _ => Return (llm, retriever);
  invoke := fun c _ _ =>
    Return {| result := "Mohamed Salah"; source_documents := fst (snd c) |}
|}.

Section Objects.
Context `{Collaborators}.

(** The object [QASystem()] builds. *)
Definition default_object : QASystem.t :=
  {| QASystem.config := QASystem.default_config;
     QASystem.show_validation := VBool true;
     QASystem.verbose := VBool true;
     QASystem.data_year := VStr "2019-20";
     QASystem.processor := built_processor;
     QASystem.llm :=
       {| model := VStr "gpt-3.5-turbo"; temperature := VFloat 0.1%float;
          openai_api_key := getenv "OPENAI_API_KEY" |};
     QASystem.vectorstore := None;
     QASystem.qa_chain := None |}.

(** The object [QASystem({"show_validation": False, "verbose": False})]
    builds. *)
Definition quiet_object : QASystem.t :=
  {| QASystem.config :=
       <["show_validation" := VBool false]>
       (<["verbose" := VBool false]> QASystem.default_config);
     QASystem.show_validation := VBool false;
     QASystem.verbose := VBool false;
     QASystem.data_year := VStr "2019-20";
     QASystem.processor := built_processor;
     QASystem.llm :=
       {| model := VStr "gpt-3.5-turbo"; temperature := VFloat 0.1%float;
          openai_api_key := getenv "OPENAI_API_KEY" |};
     QASystem.vectorstore := None;
     QASystem.qa_chain := None |}.

(** The object [QASystem({"data_year": "2099-2100"})] builds. *)
Definition future_object : QASystem.t :=
  {| QASystem.config :=
       <["data_year" := VStr "2099-2100"]> QASystem.default_config;
     QASystem.show_validation := VBool true;
     QASystem.verbose := VBool true;
     QASystem.data_year := VStr "2099-2100";
     QASystem.processor := built_processor;
     QASystem.llm :=
       {| model := VStr "gpt-3.5-turbo"; temperature := VFloat 0.1%float;
          openai_api_key := getenv "OPENAI_API_KEY" |};
     QASystem.vectorstore := None;
     QASystem.qa_chain := None |}.

(** The value the constructor finds under a key. *)
Definition option_of (config : option (gmap string value)) (key : string)
  : value :=
  default VNone (effective config key).

(** The chat model and the object [QASystem(config)] builds. *)
Definition built_llm (config : option (gmap string value)) : ChatOpenAI :=
  {| model := option_of config "llm_model";
     temperature := option_of config "temperature";
     openai_api_key := getenv "OPENAI_API_KEY" |}.

Definition built_object (config : option (gmap string value)) : QASystem.t :=
  {| QASystem.config := QASystem.merge_config config;
     QASystem.show_validation := option_of config "show_validation";
     QASystem.verbose := option_of config "verbose";
     QASystem.data_year := option_of config "data_year";
     QASystem.processor := built_processor;
     QASystem.llm := built_llm config;
     QASystem.vectorstore := None;
     QASystem.qa_chain := None |}.

(** The state [setup_document("documents/fpl.pdf")] leaves, starting
    with a silent console and no call made. *)
Definition after_setup (self : QASystem.t) : QASystem.Sys :=
  snd (QASystem.setup_document "documents/fpl.pdf" (self, empty_world)).

End Objects.

(** ** Vocabulary of the statements on the console and the index *)

Section Transcript.
Context `{Collaborators}.

(** A computation that, run on [self], prints [lines] and does nothing
    else. *)
Definition prints (self : QASystem.t) (m : M QASystem.Sys unit)
    (lines : list string) : Prop :=
  forall w,
    m (self, w) =
    (Return tt, (self, {| stdout := stdout w ++ lines; calls := calls w |})).

(** The warnings [ask_question] looks at: none when [show_validation]
    is off. *)
Definition shown_warnings (self : QASystem.t) (question : string)
  : outcome (list string) :=
  if truthy (QASystem.show_validation self)
  then validate_result (QASystem.data_year self) question
  else Return [].

Definition scope_lines (label : value) (warnings : list string)
  : list string :=
  if QASystem.nonempty warnings then
    [nl +:+ " DATA SCOPE WARNINGS:"] ++
    map (fun warning => "   - " +:+ warning) warnings ++
    ["    Our data covers: " +:+ py_str label +:+ " FPL season only" +:+ nl]
  else [].

Definition question_lines (verbose : value) (question : string)
  : list string :=
  if truthy verbose then
    [nl +:+ " Question: " +:+ question; "Searching for relevant information..."]
  else [].

Definition reminder_lines (label : value) (warnings : list string)
  : list string :=
  if QASystem.nonempty warnings then
    [nl +:+ "REMINDER: This answer is based on " +:+ py_str label +:+
     " data only!"]
  else [].

Definition footer_lines (verbose : value) (res : QAResult) : list string :=
  if truthy verbose then
    [nl +:+ "Based on " +:+
     str_of_Z (Z.of_nat (length (source_documents res))) +:+ " document chunks"]
  else [].

(** The object with a new index, and with a new chain. *)
Definition with_store (self : QASystem.t) (store : VectorStore) : QASystem.t :=
  {| QASystem.config := QASystem.config self;
     QASystem.show_validation := QASystem.show_validation self;
     QASystem.verbose := QASystem.verbose self;
     QASystem.data_year := QASystem.data_year self;
     QASystem.processor := QASystem.processor self;
     QASystem.llm := QASystem.llm self;
     QASystem.vectorstore := Some store;
     QASystem.qa_chain := QASystem.qa_chain self |}.

Definition with_chain (self : QASystem.t) (chain : RetrievalQA) : QASystem.t :=
  {| QASystem.config := QASystem.config self;
     QASystem.show_validation := QASystem.show_validation self;
     QASystem.verbose := QASystem.verbose self;
     QASystem.data_year := QASystem.data_year self;
     QASystem.processor := QASystem.processor self;
     QASystem.llm := QASystem.llm self;
     QASystem.vectorstore := QASystem.vectorstore self;
     QASystem.qa_chain := Some chain |}.

(** What [setup_document] prints, stage by stage. *)
Definition start_lines (verbose : value) : list string :=
  if truthy verbose then ["Setting up document processing..."] else [].

Definition loaded_line (documents : list Document) : string :=
  "Loaded " +:+ str_of_Z (Z.of_nat (length documents)) +:+ " pages".

Definition created_line (chunks : list Document) : string :=
  "Created " +:+ str_of_Z (Z.of_nat (length chunks)) +:+ " chunks".

Definition embedding_lines (verbose : value) : list string :=
  if truthy verbose
  then [" Creating embeddings (this will use OpenAI credits)..."] else [].

Definition ready_lines (verbose : value) : list string :=
  if truthy verbose then ["✅ Q&A system ready!"] else [].

(** The three stages of [setup_document] that end in the new index:
    loading, splitting, embedding. *)
Definition ingested (self : QASystem.t) (w : World) (pdf_path : string)
    (documents chunks : list Document) (store : VectorStore) : Prop :=
  PyPDFLoader_load pdf_path (calls w) = Return documents /\
  splitter_split_documents
    (DocumentProcessor.text_splitter (QASystem.processor self)) documents
    = Return chunks /\
  FAISS_from_documents chunks
    (DocumentProcessor.embeddings (QASystem.processor self))
    (calls w ++ [CallLoad pdf_path]) = Return store.

(** The prompt [setup_document] hands to the chain. *)
Definition chain_prompt (label : value) : PromptTemplate :=
  {| template := QASystem.prompt_text (py_str label);
     input_variables := ["context"; "question"] |}.

End Transcript.

(** ** Lemmas on the text primitives *)

Lemma is_digit_cases (d : ascii) :
  is_digit d = true ->
  In d ["0"; "1"; "2"; "3"; "4"; "5"; "6"; "7"; "8"; "9"]%char.
Proof.
  destruct d as [[] [] [] [] [] [] [] []]; vm_compute; intros Hd;
    try discriminate Hd; tauto.
Qed.

Lemma year_token_value (m : string) :
  year_token m -> exists y, parse_int m = Some y /\ 2000 <= y <= 2099.
Proof.
  intros (d1 & d2 & -> & H1 & H2).
  apply is_digit_cases in H1. apply is_digit_cases in H2.
  simpl in H1, H2.
  repeat (destruct H1 as [<- | H1]; [ | ]); try contradiction;
    repeat (destruct H2 as [<- | H2]; [ | ]); try contradiction;
    (eexists; split; [vm_compute; reflexivity | lia]).
Qed.

Lemma match_here_year (prev : option ascii) (s m : string) :
  match_here QASystem.year_re prev s = Some m -> year_token m.
Proof.
  unfold QASystem.year_re. cbn [match_here].
  destruct (xorb _ _); [ | discriminate].
  destruct s as [ | c1 s]; [discriminate | ].
  destruct (Ascii.eqb_spec "2" c1) as [<- | ]; [ | discriminate].
  destruct s as [ | c2 s]; [discriminate | ].
  destruct (Ascii.eqb_spec "0" c2) as [<- | ]; [ | discriminate].
  destruct s as [ | d1 s]; [discriminate | ].
  destruct (is_digit d1) eqn:H1; [ | discriminate].
  destruct s as [ | d2 s]; [discriminate | ].
  destruct (is_digit d2) eqn:H2; [ | discriminate].
  destruct (xorb _ _); [ | discriminate].
  cbn. intros [= <-]. exists d1, d2. auto.
Qed.

Lemma findall_from_Forall (r : regex) (P : string -> Prop) :
  (forall prev s m, match_here r prev s = Some m -> P m) ->
  forall s skip prev, Forall P (findall_from r skip prev s).
Proof.
  intros HP. induction s as [ | c s IH]; intros skip prev.
  - destruct skip; cbn; [ | constructor].
    destruct (match_here r prev EmptyString) eqn:E; repeat constructor.
    eapply HP, E.
  - destruct skip; cbn [findall_from]; [ | apply IH].
    destruct (match_here r prev (String c s)) eqn:E; [ | apply IH].
    constructor; [eapply HP, E | apply IH].
Qed.

Lemma findall_year_tokens (question : string) :
  Forall year_token (findall QASystem.year_re question).
Proof.
  apply findall_from_Forall. intros prev s m. apply match_here_year.
Qed.

(** ** [validate_question] step by step *)

Section Validate.
Context `{Collaborators}.
Implicit Types (self : QASystem.t) (w : World) (question : string).

Ltac run :=
  cbv [bind ret raise lift gets modify QASystem.attr py_int py_split fst snd].

Lemma year_body_run self w year acc :
  year_token year ->
  QASystem.year_body year acc (self, w) =
  (match terminal_year (QASystem.data_year self) with
   | Return t =>
       Return (if beyond t year
               then acc ++ [year_warning (QASystem.data_year self) year]
               else acc)
   | Raise e => Raise e
   end, (self, w)).
Proof.
  intros Hyear. destruct (year_token_value _ Hyear) as (y & Ey & _).
  unfold QASystem.year_body, terminal_year, beyond. run. rewrite Ey.
  destruct (QASystem.data_year self) as [ | | | | label] eqn:El;
    try reflexivity.
  destruct (parse_int (last_item (split "-" label))) as [t | ];
    [ | reflexivity].
  destruct (y >? t); [ | reflexivity].
  unfold year_warning. by rewrite El.
Qed.

Lemma year_loop_returns self w t years acc :
  terminal_year (QASystem.data_year self) = Return t ->
  Forall year_token years ->
  for_acc years acc QASystem.year_body (self, w) =
  (Return (acc ++ map (year_warning (QASystem.data_year self))
                      (List.filter (beyond t) years)), (self, w)).
Proof.
  intros Ht Hy. revert acc.
  induction Hy as [ | year years Hyear _ IH]; intros acc;
    cbn [for_acc List.filter].
  - run. cbn. by rewrite app_nil_r.
  - unfold bind. rewrite year_body_run, Ht by assumption.
    rewrite IH. destruct (beyond t year); [ | reflexivity].
    cbn [map]. by rewrite <- app_assoc.
Qed.

Lemma year_loop_raises self w e year years acc :
  terminal_year (QASystem.data_year self) = Raise e ->
  year_token year ->
  for_acc (year :: years) acc QASystem.year_body (self, w) =
  (Raise e, (self, w)).
Proof.
  intros Ht Hyear. cbn [for_acc]. unfold bind.
  by rewrite year_body_run, Ht.
Qed.

Lemma recent_loop_returns self w question patterns acc :
  QASystem.recent_loop patterns question acc (self, w) =
  (Return (acc ++
           if existsb (fun pattern => search pattern (lower question)) patterns
           then [recency_warning (QASystem.data_year self)] else []),
   (self, w)).
Proof.
  induction patterns as [ | pattern rest IH]; cbn [QASystem.recent_loop existsb].
  - run. by rewrite app_nil_r.
  - destruct (search pattern (lower question)); [reflexivity | apply IH].
Qed.

Lemma player_body_run self w question player acc :
  QASystem.player_body question player acc (self, w) =
  (Return (if named question player
           then acc ++ [player_warning (QASystem.data_year self) player]
           else acc), (self, w)).
Proof.
  unfold QASystem.player_body, named.
  destruct (contains player (lower question)); reflexivity.
Qed.

Lemma player_loop_returns self w question players acc :
  for_acc players acc (QASystem.player_body question) (self, w) =
  (Return (acc ++ map (player_warning (QASystem.data_year self))
                      (List.filter (named question) players)), (self, w)).
Proof.
  revert acc. induction players as [ | player rest IH]; intros acc;
    cbn [for_acc List.filter].
  - run. cbn. by rewrite app_nil_r.
  - unfold bind. rewrite player_body_run, IH.
    destruct (named question player); [ | reflexivity].
    cbn [map]. by rewrite <- app_assoc.
Qed.

(** The method leaves the object and the world as they are, and its
    result is [validate_result] of the label and the question. *)
Lemma validate_question_run self w question :
  QASystem.validate_question question (self, w) =
  (validate_result (QASystem.data_year self) question, (self, w)).
Proof.
  unfold QASystem.validate_question, validate_result, year_warnings,
    recency_warnings, recency_match, player_warnings.
  pose proof (findall_year_tokens question) as Hy.
  destruct (findall QASystem.year_re question) as [ | year years].
  - cbn [for_acc]. run. rewrite recent_loop_returns, player_loop_returns.
    reflexivity.
  - destruct (terminal_year (QASystem.data_year self)) as [t | e] eqn:Ht.
    + unfold bind at 1. rewrite (year_loop_returns _ _ t) by assumption.
      run. rewrite recent_loop_returns, player_loop_returns.
      rewrite app_nil_l. by rewrite <- app_assoc.
    + unfold bind at 1. inversion Hy; subst.
      rewrite (year_loop_raises _ _ e) by assumption. reflexivity.
Qed.

(** With a numeric last segment in the label the method returns the
    three contributions, one after the other. *)
Lemma validate_question_returns self w question t :
  terminal_year (QASystem.data_year self) = Return t ->
  fst (QASystem.validate_question question (self, w)) =
  Return (year_warnings (QASystem.data_year self) t question ++
          recency_warnings (QASystem.data_year self) question ++
          player_warnings (QASystem.data_year self) question).
Proof.
  intros Ht. rewrite validate_question_run. cbn [fst].
  unfold validate_result. rewrite Ht.
  destruct (findall QASystem.year_re question) eqn:Ef; [ | reflexivity].
  unfold year_warnings. by rewrite Ef.
Qed.

End Validate.

(** ** The constructor and the merge of the options *)

Section Construct.
Context `{Collaborators}.
Implicit Types (self : QASystem.t) (w : World).

Lemma effective_lookup (config : option (gmap string value)) (key : string) :
  effective config key =
  match config with
  | Some c =>
      match c !! key with
      | Some v => Some v
      | None => QASystem.default_config !! key
      end
  | None => QASystem.default_config !! key
  end.
Proof.
  unfold effective, QASystem.merge_config.
  destruct config as [c | ]; [ | reflexivity].
  rewrite lookup_union. destruct (c !! key), (QASystem.default_config !! key);
    reflexivity.
Qed.

Lemma effective_default (config : option (gmap string value))
    (key : string) (d : value) :
  QASystem.default_config !! key = Some d ->
  is_Some (effective config key).
Proof.
  intros Hd. rewrite effective_lookup.
  destruct config as [c | ]; [ | by rewrite Hd].
  destruct (c !! key); [eauto | by rewrite Hd].
Qed.

(** What the constructor built, when it returned. *)
Lemma init_returns config w self w' :
  QASystem.init config w = (Return self, w') ->
  w' = w /\
  QASystem.config self = QASystem.merge_config config /\
  effective config "show_validation" = Some (QASystem.show_validation self) /\
  effective config "verbose" = Some (QASystem.verbose self) /\
  effective config "data_year" = Some (QASystem.data_year self) /\
  effective config "llm_model" = Some (model (QASystem.llm self)) /\
  effective config "temperature" = Some (temperature (QASystem.llm self)) /\
  openai_api_key (QASystem.llm self) = getenv "OPENAI_API_KEY" /\
  QASystem.processor self = built_processor /\
  QASystem.vectorstore self = None /\
  QASystem.qa_chain self = None.
Proof.
  unfold QASystem.init, DocumentProcessor.init, effective.
  cbv [bind ret raise lift getitem].
  destruct (QASystem.merge_config config !! "show_validation"); [ | discriminate].
  destruct (QASystem.merge_config config !! "verbose"); [ | discriminate].
  destruct (QASystem.merge_config config !! "data_year"); [ | discriminate].
  destruct (check_embeddings _); [ | discriminate].
  destruct (QASystem.merge_config config !! "llm_model"); [ | discriminate].
  destruct (QASystem.merge_config config !! "temperature"); [ | discriminate].
  destruct (check_chat_model _); [ | discriminate].
  intros [= <- <-]. cbn. repeat split; reflexivity.
Qed.

(** The constructor returns as soon as the library accepts the two
    client objects: no option it reads can be missing. *)
Lemma init_total config w :
  check_embeddings (DocumentProcessor.embeddings built_processor) = Return tt ->
  (forall llm, check_chat_model llm = Return tt) ->
  exists self, QASystem.init config w = (Return self, w).
Proof.
  intros He Hc.
  destruct (effective_default config "show_validation" _ eq_refl) as [v1 E1].
  destruct (effective_default config "verbose" _ eq_refl) as [v2 E2].
  destruct (effective_default config "data_year" _ eq_refl) as [v3 E3].
  destruct (effective_default config "llm_model" _ eq_refl) as [v4 E4].
  destruct (effective_default config "temperature" _ eq_refl) as [v5 E5].
  unfold effective in *.
  unfold QASystem.init, DocumentProcessor.init.
  cbv [bind ret raise lift getitem].
  cbn in He. rewrite E1, E2, E3, He, E4, E5, Hc. eauto.
Qed.

End Construct.

(** ** [ask_question] and [setup_document] step by step *)

Section Pipeline.
Context `{Collaborators}.
Implicit Types (self : QASystem.t) (w : World) (question : string).

Lemma quiet_ret : quiet (ret tt).
Proof. intros self [out cs]. by exists out. Qed.

Lemma quiet_print (line : string) : quiet (QASystem.in_world (print line)).
Proof. intros self w. by eexists. Qed.

Lemma quiet_seq (m1 m2 : M QASystem.Sys unit) :
  quiet m1 -> quiet m2 -> quiet (m1 ;; m2).
Proof.
  intros H1 H2 self w. destruct (H1 self w) as [out1 E1].
  destruct (H2 self {| stdout := out1; calls := calls w |}) as [out2 E2].
  exists out2. unfold bind. by rewrite E1, E2.
Qed.

Lemma quiet_attr {A} (field : QASystem.t -> A) (k : A -> M QASystem.Sys unit) :
  (forall a, quiet (k a)) -> quiet (do a <- QASystem.attr field; k a).
Proof. intros Hk self w. apply Hk. Qed.

Lemma quiet_when (c : bool) (m : M QASystem.Sys unit) :
  quiet m -> quiet (QASystem.when c m).
Proof. destruct c; [done | intros _; apply quiet_ret]. Qed.

Lemma quiet_for_each {A} (l : list A) (body : A -> M QASystem.Sys unit) :
  (forall x, quiet (body x)) -> quiet (for_each l body).
Proof.
  intros Hb. induction l as [ | x l IH]; cbn [for_each].
  - apply quiet_ret.
  - by apply quiet_seq.
Qed.

Lemma ask_question_unready self w question :
  QASystem.qa_chain self = None ->
  QASystem.ask_question question (self, w) =
  (Return "Please setup a document first!", (self, w)).
Proof.
  intros Hq. unfold QASystem.ask_question, bind at 1.
  cbv [QASystem.attr gets fst]. by rewrite Hq.
Qed.

Lemma bind_quiet {A} (m : M QASystem.Sys unit) (k : M QASystem.Sys A) self w :
  quiet m ->
  exists out,
    (m ;; k) (self, w) = k (self, {| stdout := out; calls := calls w |}).
Proof.
  intros Hm. destruct (Hm self w) as [out E]. exists out.
  unfold bind. by rewrite E.
Qed.

Lemma quiet_scope_warnings (warnings : list string) :
  quiet (if QASystem.nonempty warnings then
           QASystem.in_world (print (nl +:+ " DATA SCOPE WARNINGS:")) ;;
           for_each warnings (fun warning =>
             QASystem.in_world (print ("   - " +:+ warning))) ;;
           do label <- QASystem.attr QASystem.data_year;
           QASystem.in_world (print ("    Our data covers: " +:+ py_str label +:+
                                     " FPL season only" +:+ nl))
         else ret tt).
Proof.
  destruct (QASystem.nonempty warnings); [ | apply quiet_ret].
  apply quiet_seq; [apply quiet_print | ].
  apply quiet_seq; [apply quiet_for_each; intros; apply quiet_print | ].
  apply quiet_attr. intros; apply quiet_print.
Qed.

Lemma quiet_reminder (again : list string) :
  quiet (if QASystem.nonempty again then
           do label <- QASystem.attr QASystem.data_year;
           QASystem.in_world (print (nl +:+ "REMINDER: This answer is based on " +:+
                                     py_str label +:+ " data only!"))
         else ret tt).
Proof.
  destruct (QASystem.nonempty again); [ | apply quiet_ret].
  apply quiet_attr. intros; apply quiet_print.
Qed.

Lemma bind_attr {A B} (field : QASystem.t -> A) (k : A -> M QASystem.Sys B)
    self w :
  (do a <- QASystem.attr field; k a) (self, w) = k (field self) (self, w).
Proof. reflexivity. Qed.

Lemma bind_validation {A} question (k : list string -> M QASystem.Sys unit)
    (rest : M QASystem.Sys A) self w ws :
  validate_result (QASystem.data_year self) question = Return ws ->
  ((do warnings <- QASystem.validate_question question; k warnings) ;; rest)
    (self, w) = (k ws ;; rest) (self, w).
Proof.
  intros Hv. unfold bind. by rewrite validate_question_run, Hv.
Qed.

Ltac skip_quiet tac :=
  match goal with
  | |- context [bind ?m (fun _ => ?k) (?self, ?w)] =>
      let Q := fresh "Q" in
      let out := fresh "out" in
      let E := fresh "E" in
      assert (Q : quiet m) by tac;
      destruct (bind_quiet m k self w Q) as [out E]; rewrite E; clear E Q
  end.

Lemma bind_checked {A} question (k : list string -> M QASystem.Sys unit)
    (rest : M QASystem.Sys A) self w :
  (forall ws, quiet (k ws)) ->
  (truthy (QASystem.show_validation self) = true ->
   exists ws, validate_result (QASystem.data_year self) question = Return ws) ->
  exists out,
    ((if truthy (QASystem.show_validation self)
      then do warnings <- QASystem.validate_question question; k warnings
      else ret tt) ;; rest) (self, w)
    = rest (self, {| stdout := out; calls := calls w |}).
Proof.
  intros Hk Hv. destruct (truthy (QASystem.show_validation self)).
  - destruct (Hv eq_refl) as [ws Ews].
    destruct (Hk ws self w) as [out E]. exists out.
    rewrite (bind_validation _ _ _ _ _ ws Ews). unfold bind at 1.
    by rewrite E.
  - destruct w as [out cs]. by exists out.
Qed.

Lemma bind_invoke {A} (c : RetrievalQA) question
    (k : QAResult -> M QASystem.Sys A) self w res :
  invoke c question (calls w) = Return res ->
  (do r <- QASystem.in_world (remote (CallInvoke question) (invoke c question));
   k r) (self, w)
  = k res (self, {| stdout := stdout w;
                    calls := calls w ++ [CallInvoke question] |}).
Proof.
  intros Hi. unfold bind, QASystem.in_world, remote. cbn [fst snd].
  by rewrite Hi.
Qed.

Ltac skip_checked lem Hv :=
  match goal with
  | |- context [bind (if truthy _ then bind (QASystem.validate_question ?q) ?k
                      else ret tt) (fun _ => ?rest) (?self, ?w)] =>
      let out := fresh "out" in
      let E := fresh "E" in
      destruct (bind_checked q k rest self w lem Hv) as [out E];
      rewrite E; clear E
  end.

(** On a pipeline with a chain, the answer is the text the chain
    returns, provided the validation, when it is switched on, returns. *)
Lemma ask_question_ready self w question c res :
  QASystem.qa_chain self = Some c ->
  invoke c question (calls w) = Return res ->
  (truthy (QASystem.show_validation self) = true ->
   exists ws, validate_result (QASystem.data_year self) question = Return ws) ->
  exists out,
    QASystem.ask_question question (self, w) =
    (Return (result res),
     (self, {| stdout := out; calls := calls w ++ [CallInvoke question] |})).
Proof.
  intros Hq Hi Hv. unfold QASystem.ask_question.
  rewrite bind_attr, Hq, bind_attr.
  skip_checked quiet_scope_warnings Hv.
  rewrite bind_attr.
  skip_quiet ltac:(apply quiet_when, quiet_seq; apply quiet_print).
  rewrite bind_attr, Hq, (bind_invoke _ _ _ _ _ res) by exact Hi.
  cbn [calls stdout].
  skip_quiet ltac:(apply quiet_print).
  rewrite bind_attr.
  skip_checked quiet_reminder Hv.
  rewrite bind_attr.
  skip_quiet ltac:(apply quiet_when, quiet_print).
  cbn [calls]. by eexists.
Qed.

Lemma ask_question_validation_raises self w question c e :
  QASystem.qa_chain self = Some c ->
  truthy (QASystem.show_validation self) = true ->
  validate_result (QASystem.data_year self) question = Raise e ->
  QASystem.ask_question question (self, w) = (Raise e, (self, w)).
Proof.
  intros Hq Hs Hv. unfold QASystem.ask_question.
  rewrite bind_attr, Hq, bind_attr, Hs. unfold bind.
  by rewrite validate_question_run, Hv.
Qed.

Ltac run_setup :=
  unfold QASystem.setup_document, DocumentProcessor.load_document,
    DocumentProcessor.split_documents, DocumentProcessor.create_embeddings;
  cbv [bind ret raise lift gets modify getitem print remote fst snd
       QASystem.attr QASystem.in_world QASystem.when
       QASystem.set_vectorstore QASystem.set_qa_chain];
  cbn [QASystem.config QASystem.show_validation QASystem.verbose
       QASystem.data_year QASystem.processor QASystem.llm
       QASystem.vectorstore QASystem.qa_chain calls stdout].

Ltac simpl_state :=
  cbv beta iota;
  cbn [QASystem.config QASystem.show_validation QASystem.verbose
       QASystem.data_year QASystem.processor QASystem.llm
       QASystem.vectorstore QASystem.qa_chain calls stdout fst snd].

Ltac split_cases :=
  repeat match goal with
         | |- context [match ?x with _ => _ end] =>
             lazymatch x with
             | context [match _ with _ => _ end] => fail
             | _ => destruct x eqn:?; simpl_state
             end
         end.

(** Whatever the collaborators do, the settings survive. *)
Lemma setup_document_settings self w (pdf_path : string) :
  same_settings (fst (snd (QASystem.setup_document pdf_path (self, w)))) self.
Proof.
  run_setup. split_cases; cbn; repeat split; reflexivity.
Qed.

(** The outcome does not depend on the index and chain held before. *)
Lemma setup_document_forget_outcome self w (pdf_path : string) :
  fst (QASystem.setup_document pdf_path (forget self, w)) =
  fst (QASystem.setup_document pdf_path (self, w)).
Proof.
  unfold forget. run_setup. split_cases; cbn; congruence.
Qed.

(** When the call returns, neither does the state it leaves. *)
Lemma setup_document_forget_state self w (pdf_path : string) :
  fst (QASystem.setup_document pdf_path (self, w)) = Return tt ->
  snd (QASystem.setup_document pdf_path (forget self, w)) =
  snd (QASystem.setup_document pdf_path (self, w)).
Proof.
  unfold forget. run_setup. split_cases; cbn; congruence.
Qed.

(** After a call that returned, the object holds a chain. *)
Lemma setup_document_ready self w (pdf_path : string) :
  fst (QASystem.setup_document pdf_path (self, w)) = Return tt ->
  exists store chain,
    QASystem.vectorstore (fst (snd (QASystem.setup_document pdf_path (self, w))))
      = Some store /\
    QASystem.qa_chain (fst (snd (QASystem.setup_document pdf_path (self, w))))
      = Some chain.
Proof.
  run_setup. split_cases; cbn; try discriminate; eauto.
Qed.

End Pipeline.

(** ** The kinds of warning *)

Section Kinds.
Context `{Collaborators}.

Lemma year_warning_kind (label : value) (year : string) :
  is_year_warning (year_warning label year) = true /\
  is_recency_warning (year_warning label year) = false /\
  is_player_warning (year_warning label year) = false.
Proof. repeat split; reflexivity. Qed.

Lemma recency_warning_kind (label : value) :
  is_recency_warning (recency_warning label) = true /\
  is_year_warning (recency_warning label) = false /\
  is_player_warning (recency_warning label) = false.
Proof. repeat split; reflexivity. Qed.

Lemma player_warning_kind (label : value) (player : string) :
  In player QASystem.modern_players ->
  is_player_warning (player_warning label player) = true /\
  is_recency_warning (player_warning label player) = false /\
  is_year_warning (player_warning label player) = false.
Proof.
  unfold QASystem.modern_players. cbn [In].
  intros [<- | [<- | [<- | [<- | [<- | []]]]]]; repeat split; reflexivity.
Qed.

Lemma year_warnings_kind (label : value) (t : Z) (question : string) :
  Forall (fun x => is_year_warning x = true /\ is_recency_warning x = false)
         (year_warnings label t question).
Proof.
  unfold year_warnings. apply Forall_map, Forall_forall. intros year _.
  cbn. destruct (year_warning_kind label year) as (? & ? & _). auto.
Qed.

Lemma player_warnings_kind (label : value) (question : string) :
  Forall (fun x => is_player_warning x = true /\ is_recency_warning x = false)
         (player_warnings label question).
Proof.
  unfold player_warnings. apply Forall_map, Forall_forall.
  intros player Hin. apply list_elem_of_In, filter_In in Hin as [Hin _].
  cbn. destruct (player_warning_kind label player Hin) as (? & ? & _). auto.
Qed.

Lemma filter_none {A} (f : A -> bool) (l : list A) :
  Forall (fun x => f x = false) l -> List.filter f l = [].
Proof.
  induction 1 as [ | x l Hx _ IH]; cbn; [reflexivity | by rewrite Hx].
Qed.

Lemma filter_all {A} (f : A -> bool) (l : list A) :
  Forall (fun x => f x = true) l -> List.filter f l = l.
Proof.
  induction 1 as [ | x l Hx _ IH]; cbn; [reflexivity | by rewrite Hx, IH].
Qed.

(** Whenever the method's result is a list, the list has the three
    segments in their order. *)
Lemma validate_result_shape (label : value) (question : string)
    (ws : list string) :
  validate_result label question = Return ws ->
  exists ys,
    ws = ys ++ recency_warnings label question ++
         player_warnings label question /\
    Forall (fun x => is_year_warning x = true) ys.
Proof.
  unfold validate_result.
  destruct (findall QASystem.year_re question) eqn:Ef.
  - intros [= <-]. exists []. split; [reflexivity | constructor].
  - destruct (terminal_year label) as [t | e]; [ | discriminate].
    intros [= <-]. exists (year_warnings label t question).
    split; [reflexivity | ].
    eapply List.Forall_impl; [ | apply year_warnings_kind]. by intros x [? _].
Qed.

End Kinds.

(** ** The claims *)

(** C1, as the code has it: a pipeline without a chain answers with the
    fixed text "Please setup a document first!", returned as a normal
    value; it changes nothing and calls nobody.  A pipeline just
    constructed has no chain.  After a [setup_document] that returned,
    [ask_question] returns the text the chain returns, as long as the
    chain returns one and the validation, where it is switched on,
    returns. *)
Theorem ask_question_by_state `{Collaborators} (self : QASystem.t) (w : World)
    (question : string) :
  (QASystem.qa_chain self = None ->
   QASystem.ask_question question (self, w) =
   (Return "Please setup a document first!", (self, w)))
  /\
  (forall config w0,
     QASystem.init config w0 = (Return self, w) ->
     QASystem.qa_chain self = None)
  /\
  (forall pdf_path res,
     let ready := snd (QASystem.setup_document pdf_path (self, w)) in
     fst (QASystem.setup_document pdf_path (self, w)) = Return tt ->
     (forall c, QASystem.qa_chain (fst ready) = Some c ->
                invoke c question (calls (snd ready)) = Return res) ->
     (truthy (QASystem.show_validation (fst ready)) = true ->
      exists ws, fst (QASystem.validate_question question ready) = Return ws) ->
     fst (QASystem.ask_question question ready) = Return (result res)).
Proof.
  split; [apply ask_question_unready | split].
  - intros config w0 Hinit. by apply init_returns in Hinit as (_ & _ & _ & _ & _ & _ & _ & _ & _ & _ & ?).
  - intros pdf_path res ready Hret Hinv Hval.
    destruct (setup_document_ready self w pdf_path Hret) as (store & chain & _ & Hc).
    fold ready in Hc. destruct ready as [self' w'] eqn:Er. cbn [fst snd] in *.
    rewrite validate_question_run in Hval. cbn [fst] in Hval.
    destruct (ask_question_ready self' w' question chain res Hc (Hinv _ Hc) Hval)
      as [out E].
    by rewrite E.
Qed.

(** C1, counterexample: on the pipeline [QASystem()] against the mock,
    before any [setup_document], [ask_question] returns a text and so
    raises no error at all. *)
Lemma ask_question_before_setup_returns :
  mock_pipeline None = Return mock_default /\
  fst (@QASystem.ask_question mock "Who is the most expensive midfielder?"
         (mock_default, empty_world))
  = Return "Please setup a document first!" /\
  ~ (exists e,
       fst (@QASystem.ask_question mock "Who is the most expensive midfielder?"
              (mock_default, empty_world)) = Raise e).
Proof.
  split; [vm_compute; reflexivity | split; [vm_compute; reflexivity | ]].
  intros [e He]. vm_compute in He. discriminate He.
Qed.

Lemma ask_question_by_state_witness :
  @QASystem.ask_question mock "Who is the most expensive midfielder?"
    (mock_default, empty_world)
  = (Return "Please setup a document first!", (mock_default, empty_world)) /\
  @QASystem.qa_chain mock mock_default = None /\
  fst (@QASystem.ask_question mock "Who is the most expensive midfielder?"
         (snd (@QASystem.setup_document mock "documents/fpl.pdf"
                 (mock_default, empty_world))))
  = Return "Mohamed Salah".
Proof.
  destruct (@ask_question_by_state mock mock_default empty_world
              "Who is the most expensive midfielder?") as (H1 & H2 & H3).
  split; [apply H1; reflexivity | split].
  - apply (H2 None empty_world). vm_compute. reflexivity.
  - apply (H3 "documents/fpl.pdf"
              {| result := "Mohamed Salah"; source_documents := [mock_page] |}).
    + vm_compute. reflexivity.
    + intros c Hc. vm_compute in Hc. injection Hc as <-.
      vm_compute. reflexivity.
    + intros _. exists []. vm_compute. reflexivity.
Defined.

(** C2, evaluated where the code departs from it: for the label
    "2019-20" the bound the year tokens are compared with is 20, the
    text after the hyphen, so the token 2019, which does not exceed the
    season's last year 2020, is reported all the same. *)
Theorem validate_question_reports_2019 :
  terminal_year (VStr "2019-20") = Return 20 /\
  fst (@QASystem.validate_question mock "Who scored the most points in 2019?"
         (mock_default, empty_world))
  = Return ["Question mentions 2019, but our data is from 2019-20"].
Proof. split; vm_compute; reflexivity. Qed.

(** With the bound 20 every year token counts as beyond the data. *)
Lemma year_token_beyond_20 (year : string) :
  year_token year -> beyond 20 year = true.
Proof.
  intros Hy. destruct (year_token_value _ Hy) as (y & Ey & Hr).
  unfold beyond. rewrite Ey. lia.
Qed.

(** C3, evaluated where the code departs from it: a caller that passes
    the chat model under the key "model", as [app.py] does, gets a
    pipeline whose chat model is the default one; the value passed only
    sits in the merged dictionary. *)
Theorem model_option_not_read :
  exists self,
    mock_pipeline (Some model_gpt4) = Return self /\
    QASystem.config self !! "model" = Some (VStr "gpt-4") /\
    model (QASystem.llm self) = VStr "gpt-3.5-turbo".
Proof.
  eexists. split; [vm_compute; reflexivity | ].
  split; vm_compute; reflexivity.
Qed.

(** The keys the constructor does read for the chat model. *)
Lemma llm_options_configure `{Collaborators} (c : gmap string value)
    (w w' : World) (self : QASystem.t) (m t : value) :
  c !! "llm_model" = Some m ->
  c !! "temperature" = Some t ->
  QASystem.init (Some c) w = (Return self, w') ->
  model (QASystem.llm self) = m /\ temperature (QASystem.llm self) = t.
Proof.
  intros Hm Ht Hinit.
  apply init_returns in Hinit as (_ & _ & _ & _ & _ & Em & Et & _).
  rewrite effective_lookup, Hm in Em. rewrite effective_lookup, Ht in Et.
  split; congruence.
Qed.


(** The merge under the names the constructor uses: each of the six
    keys of its dictionary of defaults has an effective value whatever
    the caller passes; the effective value of a key is the caller's
    where the caller gave one and the default otherwise; and the
    pipeline built from [{"retrieval_k": 5}] has retrieval_k 5 and the
    default under every other key. *)
Theorem config_merge_defaults `{Collaborators} :
  (forall config key,
     effective config key =
     match config with
     | Some c =>
         match c !! key with
         | Some v => Some v
         | None => QASystem.default_config !! key
         end
     | None => QASystem.default_config !! key
     end)
  /\
  (forall config key,
     In key ["show_validation"; "verbose"; "llm_model"; "temperature";
             "retrieval_k"; "data_year"] ->
     is_Some (effective config key))
  /\
  (forall w w' self,
     QASystem.init (Some retrieval_5) w = (Return self, w') ->
     QASystem.config self !! "retrieval_k" = Some (VInt 5) /\
     (forall key, key <> "retrieval_k" ->
        QASystem.config self !! key = QASystem.default_config !! key) /\
     QASystem.show_validation self = VBool true /\
     QASystem.verbose self = VBool true /\
     QASystem.data_year self = VStr "2019-20" /\
     model (QASystem.llm self) = VStr "gpt-3.5-turbo" /\
     temperature (QASystem.llm self) = VFloat 0.1%float).
Proof.
  split; [apply effective_lookup | split].
  - intros config key Hin. cbn [In] in Hin.
    destruct Hin as [<- | [<- | [<- | [<- | [<- | [<- | []]]]]]];
      eapply effective_default; reflexivity.
  - intros w w' self Hinit.
    apply init_returns in Hinit
      as (_ & Ec & Es & Ev & Ed & Em & Et & _).
    split; [rewrite Ec; vm_compute; reflexivity | split].
    + intros key Hk. rewrite Ec. fold (effective (Some retrieval_5) key).
      rewrite effective_lookup. unfold retrieval_5.
      rewrite lookup_singleton_ne; [reflexivity | congruence].
    + assert (effective (Some retrieval_5) "show_validation"
              = Some (VBool true)) as E1 by (vm_compute; reflexivity).
      assert (effective (Some retrieval_5) "verbose"
              = Some (VBool true)) as E2 by (vm_compute; reflexivity).
      assert (effective (Some retrieval_5) "data_year"
              = Some (VStr "2019-20")) as E3 by (vm_compute; reflexivity).
      assert (effective (Some retrieval_5) "llm_model"
              = Some (VStr "gpt-3.5-turbo")) as E4 by (vm_compute; reflexivity).
      assert (effective (Some retrieval_5) "temperature"
              = Some (VFloat 0.1%float)) as E5 by (vm_compute; reflexivity).
      repeat split; congruence.
Qed.

Lemma config_merge_defaults_witness :
  is_Some (effective (Some retrieval_5) "temperature") /\
  QASystem.config mock_default !! "retrieval_k" = Some (VInt 3) /\
  (exists self,
     mock_pipeline (Some retrieval_5) = Return self /\
     QASystem.config self !! "retrieval_k" = Some (VInt 5) /\
     model (QASystem.llm self) = VStr "gpt-3.5-turbo").
Proof.
  destruct (@config_merge_defaults mock) as (_ & H2 & H3).
  split; [apply H2; cbn; tauto | split; [vm_compute; reflexivity | ]].
  destruct (@init_total mock (Some retrieval_5) empty_world eq_refl
              (fun _ => eq_refl)) as [self Hinit].
  exists self. split; [unfold mock_pipeline; by rewrite Hinit | ].
  destruct (H3 empty_world empty_world self Hinit) as (Hk & _ & _ & _ & _ & Hm & _).
  split; assumption.
Defined.



(** The year check runs before the recency check, and it is the only
    one that can raise: the method raises exactly when the question has
    a year token and [int] refuses the label's last segment. *)
Lemma validate_question_raises_iff `{Collaborators}
    (self : QASystem.t) (w : World) (question : string) (e : exn) :
  fst (QASystem.validate_question question (self, w)) = Raise e <->
  findall QASystem.year_re question <> [] /\
  terminal_year (QASystem.data_year self) = Raise e.
Proof.
  rewrite validate_question_run. cbn [fst]. unfold validate_result.
  destruct (findall QASystem.year_re question) as [ | year years].
  - split; [discriminate | by intros [? _]].
  - destruct (terminal_year (QASystem.data_year self)) as [t | e'].
    + split; [discriminate | intros [_ ?]; discriminate].
    + split; [intros [= ->]; by split | by intros [_ [= ->]]].
Qed.

(** Whatever the label, a list the method returns holds one recency
    warning if a pattern is found in the lowered question and none
    otherwise. *)
Lemma validate_question_recency_count `{Collaborators}
    (self : QASystem.t) (w : World) (question : string) (ws : list string) :
  fst (QASystem.validate_question question (self, w)) = Return ws ->
  length (List.filter is_recency_warning ws) =
    (if recency_match question then 1 else 0)%nat.
Proof.
  rewrite validate_question_run. cbn [fst]. intros Hv.
  set (label := QASystem.data_year self) in *.
  assert (exists ys,
            ws = ys ++ recency_warnings label question ++
                 player_warnings label question /\
            Forall (fun x => is_recency_warning x = false) ys)
    as (ys & -> & Hy).
  { unfold validate_result in Hv.
    destruct (findall QASystem.year_re question) as [ | year years] eqn:Ef.
    - injection Hv as <-. exists []. split; [reflexivity | constructor].
    - destruct (terminal_year label) as [t | e]; [ | discriminate].
      injection Hv as <-. exists (year_warnings label t question).
      split; [reflexivity | ].
      eapply List.Forall_impl; [ | apply year_warnings_kind].
      by intros x [_ ?]. }
  rewrite !List.filter_app, (filter_none _ ys Hy).
  rewrite (filter_none is_recency_warning (player_warnings label question))
    by (eapply List.Forall_impl; [ | apply player_warnings_kind];
        by intros x [_ ?]).
  unfold recency_warnings. destruct (recency_match question); reflexivity.
Qed.

(** C6, evaluated where the code departs from it: the question "What is
    the latest price in 2024?" matches a recency pattern, yet on the
    pipeline built with the label "2019/20" the method returns no list
    at all: the year check, which runs first, raises [ValueError] on the
    label, so the recency warning is never emitted.  The same pipeline
    still gives the one recency warning for "What's the latest news on
    transfers?", a question without a year token, and the default
    pipeline gives it for both questions.  In general the method either
    returns a list with one recency warning if a pattern is found and
    none otherwise, or it raises, and it raises only on a question with
    a year token under a label whose last segment [int] refuses. *)
Theorem recency_warning_lost_to_label :
  recency_match "What is the latest price in 2024?" = true /\
  (exists self,
     mock_pipeline (Some slash_label) = Return self /\
     QASystem.data_year self = VStr "2019/20" /\
     fst (@QASystem.validate_question mock "What is the latest price in 2024?"
            (self, empty_world))
     = Raise ValueError /\
     fst (@QASystem.validate_question mock
            "What's the latest news on transfers?" (self, empty_world))
     = Return ["Question asks about current/recent data, but our dataset is from 2019/20"])
  /\
  fst (@QASystem.validate_question mock "What is the latest price in 2024?"
         (mock_default, empty_world))
  = Return ["Question mentions 2024, but our data is from 2019-20";
            "Question asks about current/recent data, but our dataset is from 2019-20"]
  /\
  fst (@QASystem.validate_question mock "What's the latest news on transfers?"
         (mock_default, empty_world))
  = Return ["Question asks about current/recent data, but our dataset is from 2019-20"]
  /\
  (forall (C : Collaborators) (self : QASystem.t) (w : World)
          (question : string),
     match fst (QASystem.validate_question question (self, w)) with
     | Return ws =>
         length (List.filter is_recency_warning ws) =
           (if recency_match question then 1 else 0)%nat
     | Raise e =>
         findall QASystem.year_re question <> [] /\
         terminal_year (QASystem.data_year self) = Raise e
     end).
Proof.
  split; [vm_compute; reflexivity | split; [ | split; [ | split]]].
  - eexists. split; [vm_compute; reflexivity | ].
    repeat split; vm_compute; reflexivity.
  - vm_compute; reflexivity.
  - vm_compute; reflexivity.
  - intros C self w question.
    destruct (fst (QASystem.validate_question question (self, w)))
      as [ws | e] eqn:E.
    + by apply (validate_question_recency_count self w).
    + by apply (validate_question_raises_iff self w).
Qed.

(** The recency check on its own, and the method under a label whose
    last segment is a number: the loop over the recency patterns
    appends one warning if a pattern is found in the lowered question,
    however many are, and nothing otherwise, and it never raises.  When
    the label's last segment is a number, the method returns,
    and its list holds exactly one recency warning if one of the
    patterns is found in the lowered question, however many are, and
    none otherwise; the warnings of the other two checks are all there.
    With the default label the question "What's the latest news on
    transfers?" yields the recency warning and nothing else. *)
Theorem validate_question_single_recency_warning `{Collaborators}
    (self : QASystem.t) (w : World) (question : string) :
  let label := QASystem.data_year self in
  (forall acc,
     QASystem.recent_loop QASystem.recent_patterns question acc (self, w) =
     (Return (acc ++ recency_warnings label question), (self, w)) /\
     length (recency_warnings label question) =
       (if recency_match question then 1 else 0)%nat)
  /\
  (forall t,
     terminal_year label = Return t ->
     exists ws,
       fst (QASystem.validate_question question (self, w)) = Return ws /\
       length (List.filter is_recency_warning ws) =
         (if recency_match question then 1 else 0)%nat /\
       List.filter (fun x => negb (is_recency_warning x)) ws =
         year_warnings label t question ++ player_warnings label question)
  /\
  (label = VStr "2019-20" ->
   fst (QASystem.validate_question "What's the latest news on transfers?"
          (self, w))
   = Return ["Question asks about current/recent data, but our dataset is from 2019-20"]).
Proof.
  intros label. split; [ | split].
  - intros acc. split; [apply recent_loop_returns | ].
    unfold recency_warnings. by destruct (recency_match question).
  - intros t Ht.
    pose proof (validate_question_returns self w question t Ht) as E.
    fold label in E. eexists. split; [exact E | ].
    pose proof (year_warnings_kind label t question) as Hy.
    pose proof (player_warnings_kind label question) as Hp.
    assert (List.filter is_recency_warning (year_warnings label t question) = [])
      as Fy by (apply filter_none; eapply List.Forall_impl; [ | exact Hy];
                by intros x [_ ?]).
    assert (List.filter is_recency_warning (player_warnings label question) = [])
      as Fp by (apply filter_none; eapply List.Forall_impl; [ | exact Hp];
                by intros x [_ ?]).
    assert (forall l : list string,
              Forall (fun x => is_recency_warning x = false) l ->
              List.filter (fun x => negb (is_recency_warning x)) l = l) as Fn.
    { intros l Hl. apply filter_all. eapply List.Forall_impl; [ | exact Hl].
      intros x Hx. cbv beta in Hx |- *. by rewrite Hx. }
    rewrite !List.filter_app, Fy, Fp.
    rewrite (Fn (year_warnings label t question))
      by (eapply List.Forall_impl; [ | exact Hy]; by intros x [_ ?]).
    rewrite (Fn (player_warnings label question))
      by (eapply List.Forall_impl; [ | exact Hp]; by intros x [_ ?]).
    unfold recency_warnings. destruct (recency_match question); split;
      reflexivity.
  - intros El. rewrite validate_question_run. cbn [fst]. fold label.
    rewrite El. vm_compute. reflexivity.
Qed.

Lemma validate_question_single_recency_warning_witness :
  (exists ws,
     fst (@QASystem.validate_question mock
            "Is the current price of Salah the latest one, today in 2024?"
            (mock_default, empty_world)) = Return ws /\
     length (List.filter is_recency_warning ws) = 1%nat) /\
  fst (@QASystem.validate_question mock "What's the latest news on transfers?"
         (mock_default, empty_world))
  = Return ["Question asks about current/recent data, but our dataset is from 2019-20"].
Proof.
  split.
  - destruct (@validate_question_single_recency_warning mock mock_default
                empty_world
                "Is the current price of Salah the latest one, today in 2024?")
      as (_ & H1 & _).
    destruct (H1 20 eq_refl) as (ws & E & Hn & _).
    exists ws. split; [exact E | exact Hn].
  - destruct (@validate_question_single_recency_warning mock mock_default
                empty_world "What's the latest news on transfers?")
      as (_ & _ & H2).
    apply H2. reflexivity.
Defined.

(** C7: a call of [validate_question] leaves the object and the world
    (console and calls) as they were; its result is a function of the
    label and the question alone, so it is the same in every world; and
    a second call right after the first gives the same result and
    state again. *)
Theorem validate_question_pure `{Collaborators}
    (self : QASystem.t) (w : World) (question : string) :
  snd (QASystem.validate_question question (self, w)) = (self, w)
  /\
  fst (QASystem.validate_question question (self, w)) =
  validate_result (QASystem.data_year self) question
  /\
  (forall w2,
     fst (QASystem.validate_question question (self, w2)) =
     fst (QASystem.validate_question question (self, w)))
  /\
  QASystem.validate_question question
    (snd (QASystem.validate_question question (self, w))) =
  QASystem.validate_question question (self, w).
Proof.
  rewrite validate_question_run. cbn [fst snd].
  repeat split; try reflexivity.
  - intros w2. by rewrite validate_question_run.
  - by rewrite validate_question_run.
Qed.

(** When the validation returns, the answer is the chain's text whatever
    [show_validation] and [verbose] hold and whatever warnings there
    are: two pipelines with the same chain give the same answer. *)
Lemma warnings_advisory_when_validation_returns `{Collaborators}
    (self1 self2 : QASystem.t) (w1 w2 : World) (question : string)
    (c : RetrievalQA) (res : QAResult) (ws1 ws2 : list string) :
  QASystem.qa_chain self1 = Some c ->
  QASystem.qa_chain self2 = Some c ->
  calls w1 = calls w2 ->
  invoke c question (calls w1) = Return res ->
  validate_result (QASystem.data_year self1) question = Return ws1 ->
  validate_result (QASystem.data_year self2) question = Return ws2 ->
  fst (QASystem.ask_question question (self1, w1)) = Return (result res) /\
  fst (QASystem.ask_question question (self2, w2)) = Return (result res).
Proof.
  intros Hc1 Hc2 Hw Hi Hv1 Hv2.
  destruct (ask_question_ready self1 w1 question c res Hc1 Hi) as [o1 E1];
    [eauto | ].
  rewrite Hw in Hi.
  destruct (ask_question_ready self2 w2 question c res Hc2 Hi) as [o2 E2];
    [eauto | ].
  by rewrite E1, E2.
Qed.

(** C8, evaluated where the code departs from it: with the label
    "2019/20" and a question that names a year, the validation run by
    [ask_question] raises [ValueError] before the chain is called, so
    the pipeline that shows warnings gives no answer and the chain is
    never invoked, while the same pipeline with [show_validation] off
    invokes the chain and returns its answer. *)
Theorem validation_failure_blocks_answer :
  returned (mock_ready (Some slash_label)) = true /\
  fst (mock_ask (Some slash_label) "Who is the best player in 2024?")
  = Raise ValueError /\
  calls (snd (mock_ask (Some slash_label) "Who is the best player in 2024?"))
  = [CallLoad "documents/fpl.pdf"; CallEmbed [mock_page]] /\
  fst (mock_ask (Some slash_label_silent) "Who is the best player in 2024?")
  = Return "Mohamed Salah" /\
  calls (snd (mock_ask (Some slash_label_silent)
                "Who is the best player in 2024?"))
  = [CallLoad "documents/fpl.pdf"; CallEmbed [mock_page];
     CallInvoke "Who is the best player in 2024?"].
Proof. repeat split; vm_compute; reflexivity. Qed.

(** C10: whatever the path, the object and the collaborators' answers,
    and whether the call returns or raises, [setup_document] leaves
    config, show_validation, verbose, data_year, llm and processor as
    they were; so does a second call after the first. *)
Theorem setup_document_frame `{Collaborators} (self : QASystem.t) (w : World)
    (pdf_path next_path : string) :
  let after := snd (QASystem.setup_document pdf_path (self, w)) in
  same_settings (fst after) self /\
  same_settings (fst (snd (QASystem.setup_document next_path after))) self.
Proof.
  intros after.
  pose proof (setup_document_settings self w pdf_path) as H1.
  fold after in H1. split; [exact H1 | ].
  destruct after as [self1 w1]. cbn [fst] in H1.
  pose proof (setup_document_settings self1 w1 next_path) as H2.
  unfold same_settings in *.
  destruct H1 as (? & ? & ? & ? & ? & ?), H2 as (? & ? & ? & ? & ? & ?).
  repeat split; congruence.
Qed.

(** ** What [ask_question] prints and calls *)

Section Console.
Context `{Collaborators}.
Implicit Types (self : QASystem.t) (w : World) (question : string).

Lemma world_eta w : {| stdout := stdout w; calls := calls w |} = w.
Proof. by destruct w. Qed.

Lemma prints_ret self : prints self (ret tt) [].
Proof. intros w. unfold ret. by rewrite app_nil_r, world_eta. Qed.

Lemma prints_print self (line : string) :
  prints self (QASystem.in_world (print line)) [line].
Proof. intros w. reflexivity. Qed.

Lemma prints_seq self (m1 m2 : M QASystem.Sys unit) (l1 l2 : list string) :
  prints self m1 l1 -> prints self m2 l2 -> prints self (m1 ;; m2) (l1 ++ l2).
Proof.
  intros H1 H2 w. unfold bind. rewrite H1, H2. cbn [stdout calls].
  by rewrite app_assoc.
Qed.

Lemma prints_attr {A} self (field : QASystem.t -> A)
    (k : A -> M QASystem.Sys unit) (lines : list string) :
  prints self (k (field self)) lines ->
  prints self (do a <- QASystem.attr field; k a) lines.
Proof. intros Hk w. apply Hk. Qed.

Lemma prints_for_each {A} self (l : list A) (line : A -> string) :
  prints self (for_each l (fun x => QASystem.in_world (print (line x))))
         (map line l).
Proof.
  induction l as [ | x l IH]; cbn [for_each map].
  - apply prints_ret.
  - apply (prints_seq _ _ _ [line x]); [apply prints_print | exact IH].
Qed.

Lemma prints_when self (c : bool) (m : M QASystem.Sys unit)
    (lines : list string) :
  prints self m lines ->
  prints self (QASystem.when c m) (if c then lines else []).
Proof. destruct c; [done | intros _; apply prints_ret]. Qed.

Lemma bind_prints {A} self w (m : M QASystem.Sys unit)
    (k : M QASystem.Sys A) (lines : list string) :
  prints self m lines ->
  (m ;; k) (self, w) =
  k (self, {| stdout := stdout w ++ lines; calls := calls w |}).
Proof. intros Hm. unfold bind. by rewrite Hm. Qed.

Lemma prints_scope self (warnings : list string) :
  prints self
    (if QASystem.nonempty warnings then
       QASystem.in_world (print (nl +:+ " DATA SCOPE WARNINGS:")) ;;
       for_each warnings (fun warning =>
         QASystem.in_world (print ("   - " +:+ warning))) ;;
       do label <- QASystem.attr QASystem.data_year;
       QASystem.in_world (print ("    Our data covers: " +:+ py_str label +:+
                                 " FPL season only" +:+ nl))
     else ret tt)
    (scope_lines (QASystem.data_year self) warnings).
Proof.
  unfold scope_lines. destruct (QASystem.nonempty warnings);
    [ | apply prints_ret].
  apply prints_seq; [apply prints_print | ].
  apply prints_seq; [apply prints_for_each | ].
  apply prints_attr, prints_print.
Qed.

Lemma prints_reminder self (again : list string) :
  prints self
    (if QASystem.nonempty again then
       do label <- QASystem.attr QASystem.data_year;
       QASystem.in_world (print (nl +:+ "REMINDER: This answer is based on " +:+
                                 py_str label +:+ " data only!"))
     else ret tt)
    (reminder_lines (QASystem.data_year self) again).
Proof.
  unfold reminder_lines. destruct (QASystem.nonempty again);
    [ | apply prints_ret].
  apply prints_attr, prints_print.
Qed.

(** A block that consults the validation when [show_validation] is on. *)
Lemma bind_shown {A} self w question (k : list string -> M QASystem.Sys unit)
    (lines : list string -> list string) (rest : M QASystem.Sys A) :
  (forall ws, prints self (k ws) (lines ws)) ->
  lines [] = [] ->
  ((if truthy (QASystem.show_validation self)
    then do warnings <- QASystem.validate_question question; k warnings
    else ret tt) ;; rest) (self, w) =
  match shown_warnings self question with
  | Raise e => (Raise e, (self, w))
  | Return ws =>
      rest (self, {| stdout := stdout w ++ lines ws; calls := calls w |})
  end.
Proof.
  intros Hk Hnil. unfold shown_warnings.
  destruct (truthy (QASystem.show_validation self)).
  - unfold bind. rewrite validate_question_run.
    destruct (validate_result _ _) as [ws | e]; [ | reflexivity].
    by rewrite Hk.
  - unfold bind, ret. by rewrite Hnil, app_nil_r, world_eta.
Qed.

Ltac step_shown lem :=
  match goal with
  | |- context [bind (if truthy _ then bind (QASystem.validate_question ?q) ?k
                      else ret tt) (fun _ => ?rest) (?self, ?w)] =>
      rewrite (bind_shown self w q k _ rest (lem self) eq_refl)
  end.

Ltac step_prints tac :=
  match goal with
  | |- context [bind ?m (fun _ => ?k) (?self, ?w)] =>
      erewrite (bind_prints self w m k) by tac
  end.

(** The whole of [ask_question] on a pipeline that holds a chain. *)
Lemma ask_question_run self w question c :
  QASystem.qa_chain self = Some c ->
  QASystem.ask_question question (self, w) =
  match shown_warnings self question with
  | Raise e => (Raise e, (self, w))
  | Return ws =>
      let before :=
        stdout w ++ scope_lines (QASystem.data_year self) ws ++
        question_lines (QASystem.verbose self) question in
      let made := calls w ++ [CallInvoke question] in
      match invoke c question (calls w) with
      | Raise e => (Raise e, (self, {| stdout := before; calls := made |}))
      | Return res =>
          (Return (result res),
           (self,
            {| stdout :=
                 before ++ ["Answer: " +:+ result res] ++
                 reminder_lines (QASystem.data_year self) ws ++
                 footer_lines (QASystem.verbose self) res;
               calls := made |}))
      end
  end.
Proof.
  intros Hq. unfold QASystem.ask_question.
  rewrite bind_attr, Hq, bind_attr.
  step_shown prints_scope.
  destruct (shown_warnings self question) as [ws | e] eqn:Ews; [ | reflexivity].
  rewrite bind_attr.
  step_prints ltac:(eapply prints_when, prints_seq; apply prints_print).
  cbn [app].
  fold (question_lines (QASystem.verbose self) question).
  rewrite bind_attr, Hq.
  unfold bind at 1. unfold QASystem.in_world at 1, remote. cbn [fst snd calls stdout].
  destruct (invoke c question (calls w)) as [res | e]; [ | by rewrite app_assoc].
  step_prints ltac:(apply prints_print).
  rewrite bind_attr. step_shown prints_reminder. rewrite Ews.
  rewrite bind_attr.
  step_prints ltac:(eapply prints_when; apply prints_print).
  fold (footer_lines (QASystem.verbose self) res).
  unfold ret. cbn [stdout calls]. rewrite <- !app_assoc. reflexivity.
Qed.

Lemma shown_warnings_code self w question :
  shown_warnings self question =
  if truthy (QASystem.show_validation self)
  then fst (QASystem.validate_question question (self, w))
  else Return [].
Proof. unfold shown_warnings. by rewrite validate_question_run. Qed.

Lemma ask_question_keeps_object_aux self w question :
  fst (snd (QASystem.ask_question question (self, w))) = self.
Proof.
  destruct (QASystem.qa_chain self) as [c | ] eqn:Hq.
  - rewrite (ask_question_run self w question c Hq).
    destruct (shown_warnings self question); [ | reflexivity].
    cbv zeta. destruct (invoke c question (calls w)); reflexivity.
  - by rewrite ask_question_unready.
Qed.

(** X1: on every path, ready or not, returning or raising, [ask_question]
    hands back the object it was given: no attribute is assigned. *)
Theorem ask_question_keeps_object self w question :
  fst (snd (QASystem.ask_question question (self, w))) = self.
Proof.
  destruct (QASystem.qa_chain self) as [c | ] eqn:Hq.
  - rewrite (ask_question_run self w question c Hq).
    destruct (shown_warnings self question); [ | reflexivity].
    cbv zeta. destruct (invoke c question (calls w)); reflexivity.
  - by rewrite ask_question_unready.
Qed.

(** X2: the calls [ask_question] makes.  Without a chain, or when the
    validation it runs raises, it makes none; otherwise it makes exactly
    one, the invocation of the chain with the question, whether that
    returns or raises.  Nothing is cached: asking the same question
    again invokes the chain again. *)
Theorem ask_question_calls self w question :
  let checked :=
    if truthy (QASystem.show_validation self)
    then fst (QASystem.validate_question question (self, w))
    else Return [] in
  let after := snd (QASystem.ask_question question (self, w)) in
  calls (snd after) =
    match QASystem.qa_chain self, checked with
    | Some _, Return _ => calls w ++ [CallInvoke question]
    | _, _ => calls w
    end
  /\
  calls (snd (snd (QASystem.ask_question question after))) =
    match QASystem.qa_chain self, checked with
    | Some _, Return _ =>
        calls w ++ [CallInvoke question; CallInvoke question]
    | _, _ => calls w
    end.
Proof.
  intros checked after.
  assert (Hc : checked = shown_warnings self question)
    by (symmetry; apply shown_warnings_code).
  assert (forall w0,
            calls (snd (snd (QASystem.ask_question question (self, w0)))) =
            match QASystem.qa_chain self, shown_warnings self question with
            | Some _, Return _ => calls w0 ++ [CallInvoke question]
            | _, _ => calls w0
            end) as Hone.
  { intros w0. destruct (QASystem.qa_chain self) as [c | ] eqn:Hq.
    - rewrite (ask_question_run self w0 question c Hq).
      destruct (shown_warnings self question); [ | reflexivity].
      cbv zeta. destruct (invoke c question (calls w0)); reflexivity.
    - by rewrite ask_question_unready. }
  split; [rewrite Hc; apply Hone | ].
  pose proof (ask_question_keeps_object_aux self w question) as Hself.
  fold after in Hself. destruct after as [self1 w1] eqn:Ea.
  cbn [fst snd] in *. subst self1. rewrite Hone.
  assert (w1 = snd after) as -> by (by rewrite Ea).
  subst after. rewrite Hone, Hc.
  destruct (QASystem.qa_chain self); [ | reflexivity].
  destruct (shown_warnings self question); [ | reflexivity].
  by rewrite <- app_assoc.
Qed.

(** X3: the console of an [ask_question] that returns.  The warnings
    are printed before the chain is invoked, under a header and followed
    by the coverage line; then the question lines when [verbose] is on;
    the answer line always; the reminder when there was a warning; and
    the count of source chunks when [verbose] is on.  With both
    switches off the answer line is still printed, and nothing else. *)
Theorem ask_question_console self w question c ws res :
  QASystem.qa_chain self = Some c ->
  (if truthy (QASystem.show_validation self)
   then fst (QASystem.validate_question question (self, w))
   else Return []) = Return ws ->
  invoke c question (calls w) = Return res ->
  stdout (snd (snd (QASystem.ask_question question (self, w)))) =
    stdout w ++
    scope_lines (QASystem.data_year self) ws ++
    question_lines (QASystem.verbose self) question ++
    ["Answer: " +:+ result res] ++
    reminder_lines (QASystem.data_year self) ws ++
    footer_lines (QASystem.verbose self) res
  /\
  (truthy (QASystem.show_validation self) = false ->
   truthy (QASystem.verbose self) = false ->
   stdout (snd (snd (QASystem.ask_question question (self, w)))) =
     stdout w ++ ["Answer: " +:+ result res]).
Proof.
  intros Hq Hws Hi. rewrite <- (shown_warnings_code self w) in Hws.
  rewrite (ask_question_run self w question c Hq), Hws. cbv zeta.
  rewrite Hi. cbn [snd stdout]. split.
  - by rewrite <- !app_assoc.
  - intros Hs Hv. unfold shown_warnings in Hws. rewrite Hs in Hws.
    injection Hws as <-.
    unfold question_lines, footer_lines, scope_lines, reminder_lines.
    rewrite Hv. cbn [QASystem.nonempty]. by rewrite !app_nil_r.
Qed.

(** X4: when the chain raises, [ask_question] raises the same exception.
    The call is on record, the warnings and question lines are already
    on the console, and no answer line follows. *)
Theorem ask_question_chain_failure self w question c ws e :
  QASystem.qa_chain self = Some c ->
  (if truthy (QASystem.show_validation self)
   then fst (QASystem.validate_question question (self, w))
   else Return []) = Return ws ->
  invoke c question (calls w) = Raise e ->
  QASystem.ask_question question (self, w) =
  (Raise e,
   (self,
    {| stdout := stdout w ++ scope_lines (QASystem.data_year self) ws ++
                 question_lines (QASystem.verbose self) question;
       calls := calls w ++ [CallInvoke question] |})).
Proof.
  intros Hq Hws Hi. rewrite <- (shown_warnings_code self w) in Hws.
  rewrite (ask_question_run self w question c Hq), Hws. cbv zeta.
  by rewrite Hi.
Qed.

End Console.

Lemma ask_question_console_witness :
  stdout (snd (snd (@QASystem.ask_question mock "Is Haaland the latest signing?"
                      (fst (@after_setup mock quiet_object),
                       snd (@after_setup mock quiet_object))))) =
  stdout (snd (@after_setup mock quiet_object)) ++ ["Answer: Mohamed Salah"]
  /\
  nth_error
    (stdout (snd (snd (@QASystem.ask_question mock
                         "Is Haaland the latest signing?"
                         (fst (@after_setup mock default_object),
                          snd (@after_setup mock default_object)))))) 8
  = Some "   - Question asks about Haaland, who likely wasn't in the 2019-20 season".
Proof.
  split.
  - destruct (@QASystem.qa_chain mock (fst (@after_setup mock quiet_object)))
      as [c | ] eqn:Hq; [ | vm_compute in Hq; discriminate Hq].
    edestruct (@ask_question_console mock
                 (fst (@after_setup mock quiet_object))
                 (snd (@after_setup mock quiet_object))
                 "Is Haaland the latest signing?" c []
                 {| result := "Mohamed Salah";
                    source_documents := [mock_page] |} Hq) as [_ T2].
    + vm_compute. reflexivity.
    + vm_compute in Hq. injection Hq as <-. vm_compute. reflexivity.
    + apply T2; vm_compute; reflexivity.
  - destruct (@QASystem.qa_chain mock (fst (@after_setup mock default_object)))
      as [c | ] eqn:Hq; [ | vm_compute in Hq; discriminate Hq].
    edestruct (@ask_question_console mock
                 (fst (@after_setup mock default_object))
                 (snd (@after_setup mock default_object))
                 "Is Haaland the latest signing?" c
                 ["Question asks about current/recent data, but our dataset is from 2019-20";
                  "Question asks about Haaland, who likely wasn't in the 2019-20 season"]
                 {| result := "Mohamed Salah";
                    source_documents := [mock_page] |} Hq) as [T1 _].
    + vm_compute. reflexivity.
    + vm_compute in Hq. injection Hq as <-. vm_compute. reflexivity.
    + rewrite T1. vm_compute. reflexivity.
Defined.

Lemma ask_question_chain_failure_witness :
  fst (@QASystem.ask_question mock_down "Who is the most expensive midfielder?"
         (fst (@after_setup mock_down default_object),
          snd (@after_setup mock_down default_object)))
  = Raise (External "APIConnectionError").
Proof.
  destruct (@QASystem.qa_chain mock_down
              (fst (@after_setup mock_down default_object)))
    as [c | ] eqn:Hq; [ | vm_compute in Hq; discriminate Hq].
  rewrite (@ask_question_chain_failure mock_down
             (fst (@after_setup mock_down default_object))
             (snd (@after_setup mock_down default_object))
             "Who is the most expensive midfielder?" c []
             (External "APIConnectionError") Hq).
  - reflexivity.
  - vm_compute. reflexivity.
  - reflexivity.
Defined.

(** ** [setup_document] stage by stage *)

Section Setup.
Context `{Collaborators}.
Implicit Types (self : QASystem.t) (w : World) (pdf_path : string).

Ltac run_setup :=
  unfold QASystem.setup_document, DocumentProcessor.load_document,
    DocumentProcessor.split_documents, DocumentProcessor.create_embeddings;
  cbv [bind ret raise lift gets modify getitem print remote fst snd
       QASystem.attr QASystem.in_world QASystem.when
       QASystem.set_vectorstore QASystem.set_qa_chain];
  cbn [QASystem.config QASystem.show_validation QASystem.verbose
       QASystem.data_year QASystem.processor QASystem.llm
       QASystem.vectorstore QASystem.qa_chain calls stdout].

Ltac simpl_state :=
  cbv beta iota;
  cbn [QASystem.config QASystem.show_validation QASystem.verbose
       QASystem.data_year QASystem.processor QASystem.llm
       QASystem.vectorstore QASystem.qa_chain calls stdout fst snd].

Lemma setup_document_load_fails self w pdf_path e :
  PyPDFLoader_load pdf_path (calls w) = Raise e ->
  QASystem.setup_document pdf_path (self, w) =
  (Raise e,
   (self, {| stdout := stdout w ++ start_lines (QASystem.verbose self);
             calls := calls w ++ [CallLoad pdf_path] |})).
Proof.
  intros Hl. run_setup. unfold start_lines.
  destruct (truthy (QASystem.verbose self)); simpl_state; rewrite Hl.
  - reflexivity.
  - by rewrite app_nil_r.
Qed.

Lemma setup_document_split_fails self w pdf_path documents e :
  PyPDFLoader_load pdf_path (calls w) = Return documents ->
  splitter_split_documents
    (DocumentProcessor.text_splitter (QASystem.processor self)) documents
    = Raise e ->
  QASystem.setup_document pdf_path (self, w) =
  (Raise e,
   (self, {| stdout := stdout w ++ start_lines (QASystem.verbose self) ++
                       [loaded_line documents];
             calls := calls w ++ [CallLoad pdf_path] |})).
Proof.
  intros Hl Hs. run_setup. unfold start_lines, loaded_line.
  destruct (truthy (QASystem.verbose self)); simpl_state; rewrite Hl;
    simpl_state; rewrite Hs; simpl_state.
  - by rewrite <- app_assoc.
  - reflexivity.
Qed.

Lemma setup_document_embed_fails self w pdf_path documents chunks e :
  PyPDFLoader_load pdf_path (calls w) = Return documents ->
  splitter_split_documents
    (DocumentProcessor.text_splitter (QASystem.processor self)) documents
    = Return chunks ->
  FAISS_from_documents chunks
    (DocumentProcessor.embeddings (QASystem.processor self))
    (calls w ++ [CallLoad pdf_path]) = Raise e ->
  QASystem.setup_document pdf_path (self, w) =
  (Raise e,
   (self, {| stdout := stdout w ++ start_lines (QASystem.verbose self) ++
                       [loaded_line documents; created_line chunks] ++
                       embedding_lines (QASystem.verbose self);
             calls := calls w ++ [CallLoad pdf_path; CallEmbed chunks] |})).
Proof.
  intros Hl Hs He. run_setup.
  unfold start_lines, loaded_line, created_line, embedding_lines.
  destruct (truthy (QASystem.verbose self)) eqn:Hv; simpl_state; rewrite Hl;
    simpl_state; rewrite Hs; simpl_state; rewrite Hv; simpl_state;
    rewrite He; simpl_state; rewrite <- ?app_assoc; reflexivity.
Qed.

Lemma setup_document_after_ingest self w pdf_path documents chunks store :
  ingested self w pdf_path documents chunks store ->
  QASystem.setup_document pdf_path (self, w) =
  let w' := {| stdout := stdout w ++ start_lines (QASystem.verbose self) ++
                         [loaded_line documents; created_line chunks] ++
                         embedding_lines (QASystem.verbose self) ++
                         ["Embeddings created successfully"];
               calls := calls w ++ [CallLoad pdf_path; CallEmbed chunks] |} in
  match QASystem.config self !! "retrieval_k" with
  | None => (Raise (KeyError "retrieval_k"), (with_store self store, w'))
  | Some k =>
      match as_retriever store (<["k" := k]> ∅) with
      | Raise e => (Raise e, (with_store self store, w'))
      | Return retriever =>
          match from_chain_type (QASystem.llm self) "stuff" retriever
                  (<["prompt" := chain_prompt (QASystem.data_year self)]> ∅)
                  true with
          | Raise e => (Raise e, (with_store self store, w'))
          | Return chain =>
              (Return tt,
               (with_chain (with_store self store) chain,
                {| stdout := stdout w' ++ ready_lines (QASystem.verbose self);
                   calls := calls w' |}))
          end
      end
  end.
Proof.
  intros (Hl & Hs & He). run_setup.
  unfold start_lines, loaded_line, created_line, embedding_lines, ready_lines,
    with_store, with_chain, chain_prompt.
  destruct (truthy (QASystem.verbose self)) eqn:Hv; simpl_state; rewrite Hl;
    simpl_state; rewrite Hs; simpl_state; rewrite Hv; simpl_state;
    rewrite He; simpl_state;
    (destruct (QASystem.config self !! "retrieval_k") as [k | ];
     [ | rewrite <- ?app_assoc; reflexivity]);
    (destruct (as_retriever store _) as [retriever | e];
     [ | rewrite <- ?app_assoc; reflexivity]);
    (destruct (from_chain_type _ _ _ _ _) as [chain | e];
     [ | rewrite <- ?app_assoc; reflexivity]);
    simpl_state; rewrite ?Hv; simpl_state;
    rewrite <- ?app_assoc; rewrite ?app_nil_r; reflexivity.
Qed.

Lemma setup_document_returns_inv self w pdf_path :
  fst (QASystem.setup_document pdf_path (self, w)) = Return tt ->
  exists documents chunks store k retriever chain,
    ingested self w pdf_path documents chunks store /\
    QASystem.config self !! "retrieval_k" = Some k /\
    as_retriever store (<["k" := k]> ∅) = Return retriever /\
    from_chain_type (QASystem.llm self) "stuff" retriever
      (<["prompt" := chain_prompt (QASystem.data_year self)]> ∅) true
      = Return chain.
Proof.
  destruct (PyPDFLoader_load pdf_path (calls w)) as [documents | e] eqn:Hl;
    [ | by rewrite (setup_document_load_fails _ _ _ e Hl)].
  destruct (splitter_split_documents
              (DocumentProcessor.text_splitter (QASystem.processor self))
              documents) as [chunks | e] eqn:Hs;
    [ | by rewrite (setup_document_split_fails _ _ _ _ e Hl Hs)].
  destruct (FAISS_from_documents chunks
              (DocumentProcessor.embeddings (QASystem.processor self))
              (calls w ++ [CallLoad pdf_path])) as [store | e] eqn:He;
    [ | by rewrite (setup_document_embed_fails _ _ _ _ _ e Hl Hs He)].
  assert (ingested self w pdf_path documents chunks store) as Hin
    by (repeat split; assumption).
  rewrite (setup_document_after_ingest _ _ _ _ _ _ Hin). cbv zeta.
  destruct (QASystem.config self !! "retrieval_k") as [k | ];
    [ | discriminate].
  destruct (as_retriever store _) as [retriever | e] eqn:Hr; [ | discriminate].
  destruct (from_chain_type _ _ _ _ _) as [chain | e] eqn:Hc; [ | discriminate].
  intros _. exists documents, chunks, store, k, retriever, chain. auto.
Qed.

(** X5: when the loader, the splitter or the embedding call raises,
    [setup_document] raises the same exception and the object is
    exactly as before: the index and the chain of an earlier setup are
    still in place. *)
Theorem setup_document_ingest_failure self w pdf_path e :
  PyPDFLoader_load pdf_path (calls w) = Raise e \/
  (exists documents,
     PyPDFLoader_load pdf_path (calls w) = Return documents /\
     (splitter_split_documents
        (DocumentProcessor.text_splitter (QASystem.processor self)) documents
        = Raise e \/
      exists chunks,
        splitter_split_documents
          (DocumentProcessor.text_splitter (QASystem.processor self)) documents
          = Return chunks /\
        FAISS_from_documents chunks
          (DocumentProcessor.embeddings (QASystem.processor self))
          (calls w ++ [CallLoad pdf_path]) = Raise e)) ->
  fst (QASystem.setup_document pdf_path (self, w)) = Raise e /\
  fst (snd (QASystem.setup_document pdf_path (self, w))) = self.
Proof.
  intros [Hl | (documents & Hl & [Hs | (chunks & Hs & He)])].
  - by rewrite (setup_document_load_fails _ _ _ e Hl).
  - by rewrite (setup_document_split_fails _ _ _ _ e Hl Hs).
  - by rewrite (setup_document_embed_fails _ _ _ _ _ e Hl Hs He).
Qed.

(** X6: when the index has been built but the retriever or the chain
    cannot be, [setup_document] raises with the new index already
    assigned and the chain left as it was: after a failed second setup
    the object pairs the new index with the chain of the old one. *)
Theorem setup_document_stale_chain self w pdf_path documents chunks store k e :
  ingested self w pdf_path documents chunks store ->
  QASystem.config self !! "retrieval_k" = Some k ->
  (as_retriever store (<["k" := k]> ∅) = Raise e \/
   exists retriever,
     as_retriever store (<["k" := k]> ∅) = Return retriever /\
     from_chain_type (QASystem.llm self) "stuff" retriever
       (<["prompt" := chain_prompt (QASystem.data_year self)]> ∅) true
       = Raise e) ->
  let after := fst (snd (QASystem.setup_document pdf_path (self, w))) in
  fst (QASystem.setup_document pdf_path (self, w)) = Raise e /\
  QASystem.vectorstore after = Some store /\
  QASystem.qa_chain after = QASystem.qa_chain self.
Proof.
  intros Hin Hk Hbuild after. subst after.
  rewrite (setup_document_after_ingest _ _ _ _ _ _ Hin). cbv zeta. rewrite Hk.
  destruct Hbuild as [Hr | (retriever & Hr & Hc)]; rewrite Hr.
  - repeat split.
  - rewrite Hc. repeat split.
Qed.

(** X7: a [setup_document] whose stages all return makes exactly two
    calls, the load of the path and the embedding of the chunks the
    splitter gave, and assigns the index that came back and the chain
    built from the object's own chat model, the chain type "stuff", a
    retriever over that index with k = config["retrieval_k"], the prompt
    for the object's data year, and source documents switched on. *)
Theorem setup_document_success self w pdf_path documents chunks store k
    retriever chain :
  ingested self w pdf_path documents chunks store ->
  QASystem.config self !! "retrieval_k" = Some k ->
  as_retriever store (<["k" := k]> ∅) = Return retriever ->
  from_chain_type (QASystem.llm self) "stuff" retriever
    (<["prompt" := chain_prompt (QASystem.data_year self)]> ∅) true
    = Return chain ->
  let after := snd (QASystem.setup_document pdf_path (self, w)) in
  fst (QASystem.setup_document pdf_path (self, w)) = Return tt /\
  fst after = with_chain (with_store self store) chain /\
  calls (snd after) = calls w ++ [CallLoad pdf_path; CallEmbed chunks].
Proof.
  intros Hin Hk Hr Hc after. subst after.
  rewrite (setup_document_after_ingest _ _ _ _ _ _ Hin). cbv zeta.
  rewrite Hk, Hr, Hc. repeat split.
Qed.

(** X8: the console of a [setup_document] that returns.  The three
    lines of the document processor (pages loaded, chunks created,
    embeddings created) are printed whatever [verbose] holds; [verbose]
    only adds the three progress lines of the pipeline around them. *)
Theorem setup_document_console self w pdf_path :
  fst (QASystem.setup_document pdf_path (self, w)) = Return tt ->
  exists documents chunks,
    PyPDFLoader_load pdf_path (calls w) = Return documents /\
    splitter_split_documents
      (DocumentProcessor.text_splitter (QASystem.processor self)) documents
      = Return chunks /\
    stdout (snd (snd (QASystem.setup_document pdf_path (self, w)))) =
      stdout w ++
      (if truthy (QASystem.verbose self)
       then ["Setting up document processing...";
             loaded_line documents; created_line chunks;
             " Creating embeddings (this will use OpenAI credits)...";
             "Embeddings created successfully"; "✅ Q&A system ready!"]
       else [loaded_line documents; created_line chunks;
             "Embeddings created successfully"]).
Proof.
  intros Hret.
  destruct (setup_document_returns_inv self w pdf_path Hret)
    as (documents & chunks & store & k & retriever & chain
        & Hin & Hk & Hr & Hc).
  exists documents, chunks.
  destruct Hin as (Hl & Hs & He). do 2 (split; [assumption | ]).
  rewrite (setup_document_after_ingest self w pdf_path documents chunks store)
    by (repeat split; assumption).
  cbv zeta. rewrite Hk, Hr, Hc. cbn [snd stdout].
  unfold start_lines, embedding_lines, ready_lines.
  destruct (truthy (QASystem.verbose self)); cbn [app];
    rewrite <- ?app_assoc; reflexivity.
Qed.

(** X9: the options given at construction are the ones the chain is
    built with: after [QASystem(config)] and a [setup_document] that
    returns, the retriever was asked for k = the effective retrieval_k,
    and the chain was built from a chat model with the effective
    llm_model and temperature and from the prompt for the effective
    data_year. *)
Theorem config_reaches_chain config w0 self w pdf_path :
  QASystem.init config w0 = (Return self, w) ->
  fst (QASystem.setup_document pdf_path (self, w)) = Return tt ->
  exists store retriever chain k m t label,
    effective config "retrieval_k" = Some k /\
    effective config "llm_model" = Some m /\
    effective config "temperature" = Some t /\
    effective config "data_year" = Some label /\
    as_retriever store (<["k" := k]> ∅) = Return retriever /\
    from_chain_type
      {| model := m; temperature := t;
         openai_api_key := getenv "OPENAI_API_KEY" |}
      "stuff" retriever (<["prompt" := chain_prompt label]> ∅) true
      = Return chain /\
    QASystem.vectorstore
      (fst (snd (QASystem.setup_document pdf_path (self, w)))) = Some store /\
    QASystem.qa_chain
      (fst (snd (QASystem.setup_document pdf_path (self, w)))) = Some chain.
Proof.
  intros Hinit Hret.
  destruct (setup_document_returns_inv self w pdf_path Hret)
    as (documents & chunks & store & k & retriever & chain
        & Hin & Hk & Hr & Hc).
  apply init_returns in Hinit
    as (_ & Ecfg & _ & _ & Ed & Em & Et & Ekey & _).
  exists store, retriever, chain, k, (model (QASystem.llm self)),
    (temperature (QASystem.llm self)), (QASystem.data_year self).
  rewrite (setup_document_after_ingest _ _ _ _ _ _ Hin). cbv zeta.
  rewrite Hk, Hr, Hc. cbn [fst snd].
  repeat split; try assumption.
  - unfold effective. by rewrite <- Ecfg.
  - rewrite <- Ekey, <- Hc. by destruct (QASystem.llm self).
Qed.

End Setup.

Lemma setup_document_ingest_failure_witness :
  fst (@QASystem.setup_document mock_missing "documents/fpl.pdf"
         (default_object, empty_world)) = Raise (External "ValueError") /\
  fst (snd (@QASystem.setup_document mock_missing "documents/fpl.pdf"
              (default_object, empty_world))) = default_object.
Proof.
  apply (@setup_document_ingest_failure mock_missing).
  left. reflexivity.
Defined.

Lemma setup_document_stale_chain_witness :
  let old : @RetrievalQA mock_no_chain :=
    (QASystem.llm (@default_object mock_no_chain), ([], ∅)) in
  let self := @with_chain mock_no_chain default_object old in
  let after :=
    fst (snd (@QASystem.setup_document mock_no_chain "documents/new.pdf"
                (self, empty_world))) in
  fst (@QASystem.setup_document mock_no_chain "documents/new.pdf"
         (self, empty_world)) = Raise (External "ValidationError") /\
  QASystem.vectorstore after = Some [mock_page] /\
  QASystem.qa_chain after = Some old.
Proof.
  intros old self.
  apply (@setup_document_stale_chain mock_no_chain self empty_world
           "documents/new.pdf" [mock_page] [mock_page] [mock_page] (VInt 3)).
  - repeat split.
  - vm_compute. reflexivity.
  - right. eexists. split; reflexivity.
Defined.

Lemma setup_document_success_witness :
  let after :=
    snd (@QASystem.setup_document mock "documents/fpl.pdf"
           (default_object, empty_world)) in
  fst (@QASystem.setup_document mock "documents/fpl.pdf"
         (default_object, empty_world)) = Return tt /\
  fst after =
    @with_chain mock (@with_store mock default_object [mock_page])
      (QASystem.llm (@default_object mock),
       ([mock_page], <["k" := VInt 3]> ∅)) /\
  calls (snd after) = [CallLoad "documents/fpl.pdf"; CallEmbed [mock_page]].
Proof.
  apply (@setup_document_success mock default_object empty_world
           "documents/fpl.pdf" [mock_page] [mock_page] [mock_page] (VInt 3)
           ([mock_page], <["k" := VInt 3]> ∅)).
  - repeat split.
  - vm_compute. reflexivity.
  - reflexivity.
  - reflexivity.
Defined.

Lemma setup_document_console_witness :
  exists documents chunks,
    @PyPDFLoader_load mock "documents/fpl.pdf" [] = Return documents /\
    @splitter_split_documents mock
      (DocumentProcessor.text_splitter
         (QASystem.processor (@quiet_object mock))) documents
      = Return chunks /\
    stdout (snd (snd (@QASystem.setup_document mock "documents/fpl.pdf"
                        (quiet_object, empty_world)))) =
      [] ++
      (if truthy (QASystem.verbose (@quiet_object mock))
       then ["Setting up document processing...";
             loaded_line documents; created_line chunks;
             " Creating embeddings (this will use OpenAI credits)...";
             "Embeddings created successfully"; "✅ Q&A system ready!"]
       else [loaded_line documents; created_line chunks;
             "Embeddings created successfully"]).
Proof.
  apply (@setup_document_console mock quiet_object empty_world
           "documents/fpl.pdf").
  vm_compute. reflexivity.
Defined.

Lemma config_reaches_chain_witness :
  exists store retriever chain,
    @as_retriever mock store (<["k" := VInt 3]> ∅) = Return retriever /\
    QASystem.qa_chain
      (fst (snd (@QASystem.setup_document mock "documents/fpl.pdf"
                   (default_object, empty_world)))) = Some chain.
Proof.
  destruct (@config_reaches_chain mock None empty_world default_object
              empty_world "documents/fpl.pdf")
    as (store & retriever & chain & k & m & t & label
        & Ek & _ & _ & _ & Hr & _ & _ & Hq);
    [vm_compute; reflexivity | vm_compute; reflexivity | ].
  vm_compute in Ek. injection Ek as <-.
  exists store, retriever, chain. split; [exact Hr | exact Hq].
Defined.

(** ** More on [validate_question] *)

Section Letters.

Lemma lower_char_idem (c : ascii) : lower_char (lower_char c) = lower_char c.
Proof. destruct c as [[] [] [] [] [] [] [] []]; reflexivity. Qed.

Lemma lower_char_word (c : ascii) : is_word (lower_char c) = is_word c.
Proof. destruct c as [[] [] [] [] [] [] [] []]; reflexivity. Qed.

Lemma lower_char_digit (c : ascii) : is_digit (lower_char c) = is_digit c.
Proof. destruct c as [[] [] [] [] [] [] [] []]; reflexivity. Qed.

Lemma lower_char_is_digit (c : ascii) :
  is_digit c = true -> lower_char c = c.
Proof.
  destruct c as [[] [] [] [] [] [] [] []]; vm_compute; intros Hd;
    try discriminate Hd; reflexivity.
Qed.

Lemma lower_char_eqb_2 (c : ascii) :
  Ascii.eqb "2" (lower_char c) = Ascii.eqb "2" c.
Proof. destruct c as [[] [] [] [] [] [] [] []]; reflexivity. Qed.

Lemma lower_char_eqb_0 (c : ascii) :
  Ascii.eqb "0" (lower_char c) = Ascii.eqb "0" c.
Proof. destruct c as [[] [] [] [] [] [] [] []]; reflexivity. Qed.

Lemma lower_idem (s : string) : lower (lower s) = lower s.
Proof.
  induction s as [ | c s IH]; cbn; [reflexivity | ].
  by rewrite lower_char_idem, IH.
Qed.

Lemma word_opt_lower (prev : option ascii) :
  word_opt (lower_char <$> prev) = word_opt prev.
Proof. destruct prev; cbn; [apply lower_char_word | reflexivity]. Qed.

Lemma word_head_lower (s : string) :
  word_opt (head (lower s)) = word_opt (head s).
Proof. destruct s; cbn; [reflexivity | apply lower_char_word]. Qed.

Lemma match_here_year_lower (prev : option ascii) (s : string) :
  match_here QASystem.year_re (lower_char <$> prev) (lower s) =
  match_here QASystem.year_re prev s.
Proof.
  unfold QASystem.year_re. cbn [match_here].
  rewrite word_opt_lower, word_head_lower.
  destruct (xorb _ _); [ | reflexivity].
  destruct s as [ | c1 s]; [reflexivity | ]. cbn [lower].
  rewrite lower_char_eqb_2.
  destruct (Ascii.eqb_spec "2" c1) as [<- | ]; [ | reflexivity].
  destruct s as [ | c2 s]; [reflexivity | ]. cbn [lower].
  rewrite lower_char_eqb_0.
  destruct (Ascii.eqb_spec "0" c2) as [<- | ]; [ | reflexivity].
  destruct s as [ | d1 s]; [reflexivity | ]. cbn [lower].
  rewrite lower_char_digit.
  destruct (is_digit d1) eqn:H1; [ | reflexivity].
  rewrite (lower_char_is_digit d1 H1).
  destruct s as [ | d2 s]; [reflexivity | ]. cbn [lower].
  rewrite lower_char_digit.
  destruct (is_digit d2) eqn:H2; [ | reflexivity].
  rewrite (lower_char_is_digit d2 H2).
  pose proof (word_head_lower s) as Hh.
  cbn [word_opt] in *. rewrite Hh. reflexivity.
Qed.

Lemma findall_year_lower (s : string) (skip : nat) (prev : option ascii) :
  findall_from QASystem.year_re skip (lower_char <$> prev) (lower s) =
  findall_from QASystem.year_re skip prev s.
Proof.
  revert skip prev. induction s as [ | c s IH]; intros skip prev.
  - destruct skip; [ | reflexivity]. cbn [findall_from lower].
    change EmptyString with (lower EmptyString) at 1.
    by rewrite match_here_year_lower.
  - destruct skip; cbn [findall_from lower].
    + change (String (lower_char c) (lower s)) with (lower (String c s)).
      rewrite match_here_year_lower.
      destruct (match_here QASystem.year_re prev (String c s));
        [f_equal | ]; apply (IH _ (Some c)).
    + apply (IH _ (Some c)).
Qed.

End Letters.

Section MoreValidate.
Context `{Collaborators}.
Implicit Types (self : QASystem.t) (w : World) (question : string).

(** X10: the method does not tell upper case from lower case: a
    question and its lower-cased form get the same outcome, year
    warnings included. *)
Theorem validate_question_case_blind self w question :
  fst (QASystem.validate_question (lower question) (self, w)) =
  fst (QASystem.validate_question question (self, w)).
Proof.
  rewrite !validate_question_run. cbn [fst].
  unfold validate_result, year_warnings, recency_warnings, recency_match,
    player_warnings, named, findall.
  rewrite lower_idem.
  change (@None ascii) with (lower_char <$> @None ascii) at 1 2.
  rewrite !findall_year_lower. reflexivity.
Qed.

Lemma match_here_length (r : regex) (prev : option ascii) (s m : string) :
  match_here r prev s = Some m -> (String.length m <= String.length s)%nat.
Proof.
  revert prev s m. induction r as [ | it r IH]; intros prev s m; cbn.
  - intros [= <-]. cbn. lia.
  - destruct it as [c | p | ].
    + destruct s as [ | d s]; [discriminate | ].
      destruct (Ascii.eqb c d); [ | discriminate].
      destruct (match_here r (Some d) s) as [m' | ] eqn:E; [ | discriminate].
      cbn. intros [= <-]. apply IH in E. cbn. lia.
    + destruct s as [ | d s]; [discriminate | ].
      destruct (p d); [ | discriminate].
      destruct (match_here r (Some d) s) as [m' | ] eqn:E; [ | discriminate].
      cbn. intros [= <-]. apply IH in E. cbn. lia.
    + destruct (xorb _ _); [apply IH | discriminate].
Qed.

Lemma year_token_length (m : string) :
  year_token m -> String.length m = 4%nat.
Proof. by intros (d1 & d2 & -> & _). Qed.

Lemma findall_year_count (s : string) (skip : nat) (prev : option ascii) :
  (4 * length (findall_from QASystem.year_re skip prev s)
   <= String.length s - skip)%nat.
Proof.
  revert skip prev. induction s as [ | c s IH]; intros skip prev.
  - destruct skip; cbn [findall_from]; [ | cbn; lia].
    destruct (match_here QASystem.year_re prev EmptyString) as [m | ] eqn:E;
      [ | cbn; lia].
    pose proof (match_here_length _ _ _ _ E) as Hl.
    apply match_here_year, year_token_length in E. cbn in Hl. lia.
  - destruct skip; cbn [findall_from].
    + destruct (match_here QASystem.year_re prev (String c s)) as [m | ] eqn:E.
      * pose proof (match_here_length _ _ _ _ E) as Hl.
        apply match_here_year, year_token_length in E. rewrite E.
        specialize (IH 3%nat (Some c)). cbn in Hl |- *. lia.
      * specialize (IH 0%nat (Some c)). cbn. lia.
    + specialize (IH skip (Some c)). cbn. lia.
Qed.

Lemma player_warnings_year (label : value) question :
  Forall (fun x => is_year_warning x = false) (player_warnings label question).
Proof.
  unfold player_warnings. apply Forall_map, Forall_forall.
  intros player Hin. apply list_elem_of_In, filter_In in Hin as [Hin _].
  cbn. by destruct (player_warning_kind label player Hin) as (_ & _ & ?).
Qed.

(** X11: the size of the answer is bounded by the question: year tokens
    do not overlap, so there are at most a quarter as many year warnings
    as the question has characters, and beside them at most one recency
    warning and five player warnings. *)
Theorem validate_question_count self w question ws :
  fst (QASystem.validate_question question (self, w)) = Return ws ->
  (4 * length (List.filter is_year_warning ws) <= String.length question)%nat
  /\
  (4 * length ws <= String.length question + 24)%nat.
Proof.
  rewrite validate_question_run. cbn [fst]. intros Hv.
  assert (exists ys,
            ws = ys ++ recency_warnings (QASystem.data_year self) question ++
                 player_warnings (QASystem.data_year self) question /\
            Forall (fun x => is_year_warning x = true) ys /\
            (4 * length ys <= String.length question)%nat)
    as (ys & -> & Hy & Hn).
  { unfold validate_result in Hv.
    pose proof (findall_year_count question 0 None) as Hc.
    fold (findall QASystem.year_re question) in Hc.
    destruct (findall QASystem.year_re question) as [ | y l] eqn:Ef.
    - injection Hv as <-. exists []. repeat split; [constructor | cbn; lia].
    - destruct (terminal_year (QASystem.data_year self)) as [t | e];
        [ | discriminate].
      injection Hv as <-.
      exists (year_warnings (QASystem.data_year self) t question).
      split; [reflexivity | split].
      + eapply List.Forall_impl; [ | apply year_warnings_kind].
        by intros x [? _].
      + unfold year_warnings. rewrite length_map, Ef.
        pose proof (List.filter_length_le
                      (beyond t) (y :: l)) as Hf.
        rewrite Nat.sub_0_r in Hc. lia. }
  assert (length (recency_warnings (QASystem.data_year self) question) <= 1)%nat
    as Hr by (unfold recency_warnings; destruct (recency_match question);
              cbn; lia).
  assert (length (player_warnings (QASystem.data_year self) question) <= 5)%nat
    as Hp.
  { unfold player_warnings. rewrite length_map.
    pose proof (List.filter_length_le (named question)
                  QASystem.modern_players) as Hf. cbn in Hf. exact Hf. }
  split.
  - rewrite !List.filter_app, (filter_all _ ys Hy).
    rewrite (filter_none is_year_warning (recency_warnings _ _)).
    2:{ unfold recency_warnings. destruct (recency_match question);
          repeat constructor. }
    rewrite (filter_none is_year_warning (player_warnings _ _)).
    2:{ eapply List.Forall_impl; [ | apply player_warnings_year].
        by intros x ?. }
    rewrite !app_nil_r. exact Hn.
  - rewrite !length_app. lia.
Qed.

(** X12: how the label decides the year check.  When the number after
    the last hyphen is below 2000, as the 20 of "2019-20" is, every
    year token of the question is reported; when it is 2099 or more,
    none is. *)
Theorem validate_question_year_threshold self w question t :
  let label := QASystem.data_year self in
  terminal_year label = Return t ->
  (t < 2000 ->
   fst (QASystem.validate_question question (self, w)) =
   Return (map (year_warning label) (findall QASystem.year_re question) ++
           recency_warnings label question ++
           player_warnings label question))
  /\
  (2099 <= t ->
   fst (QASystem.validate_question question (self, w)) =
   Return (recency_warnings label question ++
           player_warnings label question)).
Proof.
  intros label Ht. rewrite (validate_question_returns self w question t Ht).
  fold label. unfold year_warnings.
  pose proof (findall_year_tokens question) as Hy.
  split; intros Hb.
  - rewrite filter_all; [reflexivity | ].
    eapply List.Forall_impl; [ | exact Hy]. intros y Hyt.
    destruct (year_token_value _ Hyt) as (v & Ev & Hr).
    unfold beyond. rewrite Ev. lia.
  - rewrite filter_none; [reflexivity | ].
    eapply List.Forall_impl; [ | exact Hy]. intros y Hyt.
    destruct (year_token_value _ Hyt) as (v & Ev & Hr).
    unfold beyond. rewrite Ev. lia.
Qed.

Lemma player_warning_inj (label : value) (p q : string) :
  In p QASystem.modern_players -> In q QASystem.modern_players ->
  player_warning label p = player_warning label q -> p = q.
Proof.
  unfold QASystem.modern_players. cbn [In].
  intros [<- | [<- | [<- | [<- | [<- | []]]]]]
         [<- | [<- | [<- | [<- | [<- | []]]]]];
    intros E; try reflexivity; vm_compute in E; discriminate E.
Qed.

Lemma NoDup_map_on {A B} (f : A -> B) (l : list A) :
  (forall x y, In x l -> In y l -> f x = f y -> x = y) ->
  NoDup l -> NoDup (map f l).
Proof.
  intros Hinj Hl. induction Hl as [ | x l Hx Hl IH]; cbn; constructor.
  - intros Hin. apply list_elem_of_In, in_map_iff in Hin as (y & Ey & Hy).
    apply Hx, list_elem_of_In.
    rewrite (Hinj x y); [exact Hy | by left | by right | by symmetry].
  - apply IH. intros a b Ha Hb. apply Hinj; by right.
Qed.

Lemma NoDup_filter_bool {A} (f : A -> bool) (l : list A) :
  NoDup l -> NoDup (List.filter f l).
Proof.
  intros Hl. induction Hl as [ | x l Hx Hl IH]; cbn; [constructor | ].
  destruct (f x); [ | exact IH]. constructor; [ | exact IH].
  intros Hin. apply Hx. apply list_elem_of_In.
  apply list_elem_of_In, filter_In in Hin. tauto.
Qed.

Lemma modern_players_NoDup : NoDup QASystem.modern_players.
Proof.
  unfold QASystem.modern_players.
  repeat (constructor;
          [rewrite list_elem_of_In; cbn [In]; intros Hin;
           repeat (destruct Hin as [Hin | Hin]; [discriminate Hin | ]);
           exact Hin | ]).
  constructor.
Qed.

(** X13: apart from year warnings, which repeat when the question names
    a year twice, a returned list never holds the same warning twice:
    the recency warning and the warning for a player each appear at
    most once, however often the question gives cause. *)
Theorem validate_question_no_repeat self w question ws :
  fst (QASystem.validate_question question (self, w)) = Return ws ->
  NoDup (List.filter (fun x => negb (is_year_warning x)) ws).
Proof.
  rewrite validate_question_run. cbn [fst]. intros Hv.
  destruct (validate_result_shape _ _ _ Hv) as (ys & -> & Hy).
  set (label := QASystem.data_year self).
  rewrite !List.filter_app.
  rewrite (filter_none _ ys)
    by (eapply List.Forall_impl; [ | exact Hy]; intros x Hx; cbv beta;
        by rewrite Hx).
  rewrite (filter_all _ (recency_warnings label question)).
  2:{ unfold recency_warnings. destruct (recency_match question);
        repeat constructor. }
  rewrite (filter_all _ (player_warnings label question)).
  2:{ eapply List.Forall_impl; [ | apply player_warnings_year].
      intros x Hx. cbv beta in Hx |- *. by rewrite Hx. }
  cbn [app].
  assert (NoDup (player_warnings label question)) as Hp.
  { unfold player_warnings. apply NoDup_map_on.
    - intros p q Hp Hq. apply filter_In in Hp as [Hp _], Hq as [Hq _].
      by apply player_warning_inj.
    - apply NoDup_filter_bool, modern_players_NoDup. }
  unfold recency_warnings. destruct (recency_match question); [ | exact Hp].
  cbn [app]. constructor; [ | exact Hp].
  intros Hin.
  pose proof (player_warnings_kind label question) as Hk.
  rewrite Forall_forall in Hk. destruct (Hk _ Hin) as [_ Hrec].
  by destruct (recency_warning_kind label) as (Hr & _); rewrite Hr in Hrec.
Qed.

End MoreValidate.

Lemma validate_question_count_witness :
  (4 * length (List.filter is_year_warning
                 ["Question mentions 2025, but our data is from 2019-20";
                  "Question asks about current/recent data, but our dataset is from 2019-20";
                  "Question asks about Haaland, who likely wasn't in the 2019-20 season"])
   <= String.length "What is Haaland's price in 2025?")%nat /\
  (4 * length
         ["Question mentions 2025, but our data is from 2019-20";
          "Question asks about current/recent data, but our dataset is from 2019-20";
          "Question asks about Haaland, who likely wasn't in the 2019-20 season"]
   <= String.length "What is Haaland's price in 2025?" + 24)%nat.
Proof.
  apply (@validate_question_count mock default_object empty_world).
  vm_compute. reflexivity.
Defined.

Lemma validate_question_year_threshold_witness :
  fst (@QASystem.validate_question mock "2018 or 2021?"
         (default_object, empty_world)) =
  Return (map (@year_warning mock (VStr "2019-20"))
              (findall QASystem.year_re "2018 or 2021?") ++
          @recency_warnings mock (VStr "2019-20") "2018 or 2021?" ++
          @player_warnings mock (VStr "2019-20") "2018 or 2021?")
  /\
  fst (@QASystem.validate_question mock "2018 or 2021?"
         (future_object, empty_world)) =
  Return (@recency_warnings mock (VStr "2099-2100") "2018 or 2021?" ++
          @player_warnings mock (VStr "2099-2100") "2018 or 2021?").
Proof.
  split.
  - apply (proj1 (@validate_question_year_threshold mock default_object
                    empty_world "2018 or 2021?" 20 eq_refl)).
    lia.
  - apply (proj2 (@validate_question_year_threshold mock future_object
                    empty_world "2018 or 2021?" 2100 eq_refl)).
    lia.
Defined.

Lemma validate_question_no_repeat_witness :
  NoDup (List.filter (fun x => negb (is_year_warning x))
           ["Question mentions 2025, but our data is from 2019-20";
            "Question mentions 2025, but our data is from 2019-20";
            "Question asks about current/recent data, but our dataset is from 2019-20";
            "Question asks about Haaland, who likely wasn't in the 2019-20 season"]).
Proof.
  apply (@validate_question_no_repeat mock default_object empty_world
           "Haaland in 2025, HAALAND now, latest 2025").
  vm_compute. reflexivity.
Defined.

(** ** More on the constructor *)

Section MoreConstruct.
Context `{Collaborators}.

Lemma option_of_default (config : option (gmap string value)) (key : string)
    (d : value) :
  QASystem.default_config !! key = Some d ->
  QASystem.merge_config config !! key = Some (option_of config key).
Proof.
  intros Hd. destruct (effective_default config key d Hd) as [v Ev].
  unfold option_of. fold (effective config key). by rewrite Ev.
Qed.

(** The constructor in closed form. *)
Lemma init_run (config : option (gmap string value)) (w : World) :
  QASystem.init config w =
  (match check_embeddings (DocumentProcessor.embeddings built_processor) with
   | Raise e => Raise e
   | Return _ =>
       match check_chat_model (built_llm config) with
       | Raise e => Raise e
       | Return _ => Return (built_object config)
       end
   end, w).
Proof.
  unfold QASystem.init, DocumentProcessor.init.
  cbv [bind ret raise lift getitem].
  rewrite (option_of_default config "show_validation" _ eq_refl).
  rewrite (option_of_default config "verbose" _ eq_refl).
  rewrite (option_of_default config "data_year" _ eq_refl).
  rewrite (option_of_default config "llm_model" _ eq_refl).
  rewrite (option_of_default config "temperature" _ eq_refl).
  cbn [DocumentProcessor.embeddings built_processor].
  destruct (check_embeddings _); [ | reflexivity].
  fold (built_llm config). destruct (check_chat_model _); reflexivity.
Qed.

(** X14: what the constructor can do.  It prints nothing and calls
    nobody; it raises only what the check of the embeddings client
    raises, or else what the check of the chat client raises, never a
    [KeyError] of its own, whatever keys the caller left out; and when
    both clients are accepted it returns the object read off the merged
    options.  An empty dictionary counts as no dictionary. *)
Theorem init_outcome (config : option (gmap string value)) (w : World) :
  QASystem.init config w =
  (match check_embeddings (DocumentProcessor.embeddings built_processor) with
   | Raise e => Raise e
   | Return _ =>
       match check_chat_model (built_llm config) with
       | Raise e => Raise e
       | Return _ => Return (built_object config)
       end
   end, w)
  /\
  QASystem.init (Some ∅) w = QASystem.init None w.
Proof.
  split; [apply init_run | ].
  rewrite !init_run.
  assert (QASystem.merge_config (Some ∅) = QASystem.merge_config None) as Em
    by (cbn; apply (left_id_L ∅ (∪))).
  unfold built_llm, built_object, option_of, effective. by rewrite Em.
Qed.

End MoreConstruct.

(** ** The scripts *)

Section ScriptLemmas.
Context `{Collaborators} `{Files}.
Implicit Types (w : World) (files : list string).

Lemma endswith_spec (suffix s : string) :
  endswith suffix s = true <-> exists pre, s = pre +:+ suffix.
Proof.
  induction s as [ | c s IH]; cbn [endswith].
  - rewrite orb_false_r, String.eqb_eq. split.
    + intros <-. by exists EmptyString.
    + intros (pre & E). destruct pre; cbn in E; [done | discriminate].
  - rewrite orb_true_iff, String.eqb_eq, IH. split.
    + intros [<- | (pre & ->)]; [by exists EmptyString | by exists (String c pre)].
    + intros (pre & E). destruct pre as [ | d pre]; cbn in E.
      * by left.
      * right. exists pre. by injection E.
Qed.

Lemma filter_pdf_none files :
  Forall (fun f => forall pre, f <> pre +:+ ".pdf") files ->
  List.filter (endswith ".pdf") files = [].
Proof.
  intros Hf. apply filter_none. eapply List.Forall_impl; [ | exact Hf].
  intros f Hn. cbv beta. destruct (endswith ".pdf" f) eqn:E; [ | reflexivity].
  apply endswith_spec in E as (pre & ->). by destruct (Hn pre).
Qed.

Lemma take_length (n : nat) (s : string) :
  (String.length (take n s) <= n)%nat.
Proof.
  revert s. induction n as [ | n IH]; intros [ | c s]; cbn; try lia.
  specialize (IH s). lia.
Qed.

Lemma take_all (n : nat) (s : string) :
  (String.length s <= n)%nat -> take n s = s.
Proof.
  revert s. induction n as [ | n IH]; intros [ | c s]; cbn; intros Hl;
    try reflexivity; try lia.
  rewrite IH; [reflexivity | lia].
Qed.

Lemma length_append (a b : string) :
  String.length (a +:+ b) = (String.length a + String.length b)%nat.
Proof.
  induction a as [ | c a IH]; [reflexivity | ].
  change (S (String.length (a +:+ b)) =
          S (String.length a + String.length b)).
  by rewrite IH.
Qed.

Ltac run_script :=
  cbv [sbind sret sraise call_method bind ret raise lift gets modify print
       remote Scripts.list_pdfs DocumentProcessor.init
       DocumentProcessor.load_document DocumentProcessor.split_documents
       fst snd];
  cbn [stdout calls].

Lemma test_document_processing_run w files first rest documents chunks :
  check_embeddings (DocumentProcessor.embeddings built_processor) = Return tt ->
  os_listdir "documents" = Return files ->
  List.filter (endswith ".pdf") files = first :: rest ->
  PyPDFLoader_load (path_join "documents" first) (calls w) = Return documents ->
  splitter_split_documents (DocumentProcessor.text_splitter built_processor)
    documents = Return chunks ->
  Scripts.test_document_processing w =
  let before :=
    stdout w ++ ["Using PDF:" +:+ first; loaded_line documents;
                 created_line chunks;
                 nl +:+ " Sample chunk (first 200 characters):";
                 repeat_str "-" 50] in
  let made := calls w ++ [CallLoad (path_join "documents" first)] in
  match chunks with
  | [] => (Failed IndexError, {| stdout := before; calls := made |})
  | chunk0 :: _ =>
      (Done (Some (built_processor, chunks)),
       {| stdout := before ++ [take 200 (page_content chunk0) +:+ "...";
                               repeat_str "-" 50;
                               "Total chunks: " +:+
                               str_of_Z (Z.of_nat (length chunks))];
          calls := made |})
  end.
Proof.
  intros He Hl Hf Hload Hsplit. unfold Scripts.test_document_processing.
  cbn [DocumentProcessor.embeddings built_processor] in He.
  cbn [DocumentProcessor.text_splitter built_processor] in Hsplit.
  run_script. rewrite He, Hl, Hf. cbv beta iota. cbn [stdout calls].
  rewrite Hload. cbv beta iota. cbn [stdout calls DocumentProcessor.text_splitter].
  rewrite Hsplit. cbv beta iota zeta. cbn [stdout calls].
  unfold loaded_line, created_line.
  destruct chunks as [ | chunk0 chunks']; cbv beta iota; cbn [stdout calls];
    rewrite <- ?app_assoc; reflexivity.
Qed.

Lemma shown_warnings_returns (self : QASystem.t) (question : string) t :
  terminal_year (QASystem.data_year self) = Return t ->
  exists ws, shown_warnings self question = Return ws.
Proof.
  intros Ht. unfold shown_warnings, validate_result. rewrite Ht.
  destruct (truthy _); [ | eauto].
  destruct (findall QASystem.year_re question); eauto.
Qed.

Lemma test_loop_run (self : QASystem.t) (chain : RetrievalQA) t
    (questions : list string) :
  QASystem.qa_chain self = Some chain ->
  terminal_year (QASystem.data_year self) = Return t ->
  (forall q h, exists res, invoke chain q h = Return res) ->
  forall start w, exists out,
    for_each (enumerate start questions) Scripts.test_body (self, w) =
    (Return tt,
     (self, {| stdout := out;
               calls := calls w ++ map CallInvoke questions |})).
Proof.
  intros Hq Ht Hinv.
  induction questions as [ | q questions IH]; intros start w;
    cbn [enumerate for_each map].
  - exists (stdout w). unfold ret. by rewrite app_nil_r, world_eta.
  - destruct (shown_warnings_returns self q t Ht) as [ws Ews].
    destruct (Hinv q (calls w)) as [res Hres].
    unfold bind at 1. unfold Scripts.test_body at 1.
    rewrite (bind_prints self w _ _ _ (prints_print self _)).
    rewrite (bind_prints self _ _ _ _ (prints_print self _)).
    cbn [stdout calls].
    unfold bind at 1. unfold bind at 1.
    rewrite (ask_question_run self _ q chain Hq), Ews. cbv zeta.
    cbn [stdout calls]. rewrite Hres. unfold ret at 1.
    rewrite (prints_print self _). cbn [stdout calls].
    edestruct IH as [out Eout]. rewrite Eout. cbn [calls].
    eexists. by rewrite <- app_assoc.
Qed.

(** X15: a folder in which no name ends in ".pdf" (the test tells
    ".PDF" from ".pdf").  Both scripts say so in one line and return
    without loading, embedding or asking anything. *)
Theorem scripts_without_pdf w files :
  os_listdir "documents" = Return files ->
  Forall (fun f => forall pre, f <> pre +:+ ".pdf") files ->
  check_embeddings (DocumentProcessor.embeddings built_processor) = Return tt ->
  check_chat_model (built_llm (Some Scripts.test_config)) = Return tt ->
  Scripts.test_document_processing w =
    (Done None, {| stdout := stdout w ++ ["Not found"]; calls := calls w |})
  /\
  Scripts.test_qa_system w =
    (Return tt,
     {| stdout := stdout w ++ ["No PDF files found in documents folder"];
        calls := calls w |}).
Proof.
  intros Hl Hf He Hc. apply filter_pdf_none in Hf. split.
  - unfold Scripts.test_document_processing.
    cbn [DocumentProcessor.embeddings built_processor] in He.
    run_script. by rewrite He, Hl, Hf.
  - unfold Scripts.test_qa_system. unfold bind at 1.
    rewrite init_run, He, Hc.
    unfold Scripts.list_pdfs. run_script. by rewrite Hl, Hf.
Qed.

(** X16: a document from which the splitter makes no chunk (a scan, a
    blank file) stops [test_document_processing] with [IndexError] at
    the sample: the load has been made and the counts printed, the
    sample and the total are not, and nothing is returned. *)
Theorem test_document_processing_no_chunks w files first rest documents :
  check_embeddings (DocumentProcessor.embeddings built_processor) = Return tt ->
  os_listdir "documents" = Return files ->
  List.filter (endswith ".pdf") files = first :: rest ->
  PyPDFLoader_load (path_join "documents" first) (calls w) = Return documents ->
  splitter_split_documents (DocumentProcessor.text_splitter built_processor)
    documents = Return [] ->
  Scripts.test_document_processing w =
  (Failed IndexError,
   {| stdout := stdout w ++ ["Using PDF:" +:+ first; loaded_line documents;
                             "Created 0 chunks";
                             nl +:+ " Sample chunk (first 200 characters):";
                             repeat_str "-" 50];
      calls := calls w ++ [CallLoad (path_join "documents" first)] |}).
Proof.
  intros He Hl Hf Hload Hsplit.
  by rewrite (test_document_processing_run w files first rest documents []).
Qed.

(** X17: with at least one chunk [test_document_processing] returns the
    processor and the chunks the splitter gave, having made one call,
    the load of the first ".pdf" name in listing order joined to the
    folder; it never embeds.  The sample it prints is the first chunk
    cut to 200 characters plus "...", so it has at most 203, and a
    short chunk is shown whole. *)
Theorem test_document_processing_sample w files first rest documents
    chunk0 chunks :
  check_embeddings (DocumentProcessor.embeddings built_processor) = Return tt ->
  os_listdir "documents" = Return files ->
  List.filter (endswith ".pdf") files = first :: rest ->
  PyPDFLoader_load (path_join "documents" first) (calls w) = Return documents ->
  splitter_split_documents (DocumentProcessor.text_splitter built_processor)
    documents = Return (chunk0 :: chunks) ->
  let sample := take 200 (page_content chunk0) +:+ "..." in
  fst (Scripts.test_document_processing w) =
    Done (Some (built_processor, chunk0 :: chunks)) /\
  calls (snd (Scripts.test_document_processing w)) =
    calls w ++ [CallLoad (path_join "documents" first)] /\
  nth_error (stdout (snd (Scripts.test_document_processing w)))
            (length (stdout w) + 5) = Some sample /\
  (String.length sample <= 203)%nat /\
  ((String.length (page_content chunk0) <= 200)%nat ->
   sample = page_content chunk0 +:+ "...") /\
  (startswith "/" first = false ->
   path_join "documents" first = "documents/" +:+ first).
Proof.
  intros He Hl Hf Hload Hsplit sample.
  rewrite (test_document_processing_run w files first rest documents
             (chunk0 :: chunks)) by assumption.
  cbv zeta. cbn [fst snd calls stdout].
  split; [reflexivity | split; [reflexivity | split; [ | split; [ | split]]]].
  - rewrite <- app_assoc. rewrite nth_error_app2; [ | lia].
    by replace (length (stdout w) + 5 - length (stdout w))%nat with 5%nat
      by lia.
  - subst sample. rewrite length_append.
    pose proof (take_length 200 (page_content chunk0)) as Ht.
    change (String.length "...") with 3%nat. lia.
  - intros Hshort. subst sample. by rewrite take_all.
  - intros Hs. unfold path_join. rewrite Hs. reflexivity.
Qed.

(** X18: [test_qa_system] when every collaborator returns.  It builds
    the pipeline with the chat model "gpt-4" and k = 5, sets it up on
    the first ".pdf" name of the folder, and asks its five questions in
    order: one load, one embedding, then one invocation of the chain
    for each question, also for the two that draw warnings. *)
Theorem test_qa_system_session w files first rest documents chunks store
    retriever chain :
  let self := built_object (Some Scripts.test_config) in
  let pdf_path := path_join "documents" first in
  check_embeddings (DocumentProcessor.embeddings built_processor) = Return tt ->
  check_chat_model (built_llm (Some Scripts.test_config)) = Return tt ->
  os_listdir "documents" = Return files ->
  List.filter (endswith ".pdf") files = first :: rest ->
  ingested self w pdf_path documents chunks store ->
  as_retriever store (<["k" := VInt 5]> ∅) = Return retriever ->
  from_chain_type
    {| model := VStr "gpt-4"; temperature := VFloat 0.2%float;
       openai_api_key := getenv "OPENAI_API_KEY" |}
    "stuff" retriever (<["prompt" := chain_prompt (VStr "2019-20")]> ∅) true
    = Return chain ->
  (forall q h, exists res, invoke chain q h = Return res) ->
  fst (Scripts.test_qa_system w) = Return tt /\
  calls (snd (Scripts.test_qa_system w)) =
    calls w ++ [CallLoad pdf_path; CallEmbed chunks] ++
    map CallInvoke Scripts.test_questions.
Proof.
  intros self pdf_path He Hc Hl Hf Hin Hr Hchain Hinv.
  assert (exists out,
            Scripts.test_qa_system w =
            (Return tt,
             {| stdout := out;
                calls := calls w ++ [CallLoad pdf_path; CallEmbed chunks] ++
                         map CallInvoke Scripts.test_questions |}))
    as [out E]; [ | by rewrite E].
  unfold Scripts.test_qa_system. unfold bind at 1.
  rewrite init_run, He, Hc. fold self.
  unfold Scripts.list_pdfs, bind at 1. unfold bind at 1, lift, ret.
  rewrite Hl, Hf. fold pdf_path. unfold Scripts.on_object.
  unfold bind at 1.
  rewrite (setup_document_after_ingest self w pdf_path documents chunks store
             Hin).
  cbv zeta.
  assert (QASystem.config self !! "retrieval_k" = Some (VInt 5)) as ->
    by (vm_compute; reflexivity).
  rewrite Hr.
  assert (QASystem.llm self =
          {| model := VStr "gpt-4"; temperature := VFloat 0.2%float;
             openai_api_key := getenv "OPENAI_API_KEY" |}) as ->
    by reflexivity.
  assert (QASystem.data_year self = VStr "2019-20") as -> by reflexivity.
  rewrite Hchain.
  set (ready := with_chain (with_store self store) chain).
  rewrite (bind_prints ready _ _ _ _ (prints_print ready _)).
  rewrite (bind_prints ready _ _ _ _ (prints_print ready _)).
  rewrite (bind_prints ready _ _ _ _ (prints_print ready _)).
  cbn [stdout calls].
  match goal with
  | |- context [for_each _ _ (ready, ?w0)] =>
      destruct (test_loop_run ready chain 20 Scripts.test_questions
                  eq_refl eq_refl Hinv 1 w0) as [out Eout]
  end.
  rewrite Eout. cbn [snd calls]. exists out. by rewrite <- app_assoc.
Qed.

End ScriptLemmas.

Lemma scripts_without_pdf_witness :
  @Scripts.test_document_processing mock no_pdf_files empty_world =
    (Done None, {| stdout := [] ++ ["Not found"]; calls := [] |})
  /\
  @Scripts.test_qa_system mock no_pdf_files empty_world =
    (Return tt,
     {| stdout := [] ++ ["No PDF files found in documents folder"];
        calls := [] |}).
Proof.
  apply (@scripts_without_pdf mock no_pdf_files empty_world
           ["notes.txt"; "old.PDF"]); try reflexivity.
  repeat constructor; intros pre E;
    (assert (endswith ".pdf" (pre +:+ ".pdf") = true) as Hs
       by (apply endswith_spec; by exists pre));
    rewrite <- E in Hs; vm_compute in Hs; discriminate Hs.
Defined.

Lemma test_document_processing_no_chunks_witness :
  @Scripts.test_document_processing mock_blank mock_files empty_world =
  (Failed IndexError,
   {| stdout := [] ++ ["Using PDF:" +:+ "fpl.pdf"; loaded_line [mock_page];
                       "Created 0 chunks";
                       nl +:+ " Sample chunk (first 200 characters):";
                       repeat_str "-" 50];
      calls := [] ++ [CallLoad (path_join "documents" "fpl.pdf")] |}).
Proof.
  apply (@test_document_processing_no_chunks mock_blank mock_files empty_world
           ["notes.txt"; "fpl.pdf"; "old.PDF"; "b.pdf"] "fpl.pdf" ["b.pdf"]
           [mock_page]); reflexivity.
Defined.

Lemma test_document_processing_sample_witness :
  fst (@Scripts.test_document_processing mock mock_files empty_world) =
    Done (Some (@built_processor mock, [mock_page])) /\
  calls (snd (@Scripts.test_document_processing mock mock_files empty_world)) =
    [CallLoad "documents/fpl.pdf"].
Proof.
  destruct (@test_document_processing_sample mock mock_files empty_world
              ["notes.txt"; "fpl.pdf"; "old.PDF"; "b.pdf"] "fpl.pdf" ["b.pdf"]
              [mock_page] mock_page [] eq_refl eq_refl eq_refl eq_refl eq_refl)
    as (H1 & H2 & _).
  split; [exact H1 | exact H2].
Defined.

Lemma test_qa_system_session_witness :
  fst (@Scripts.test_qa_system mock mock_files empty_world) = Return tt /\
  calls (snd (@Scripts.test_qa_system mock mock_files empty_world)) =
    [] ++ [CallLoad (path_join "documents" "fpl.pdf"); CallEmbed [mock_page]] ++
    map CallInvoke Scripts.test_questions.
Proof.
  apply (@test_qa_system_session mock mock_files empty_world
           ["notes.txt"; "fpl.pdf"; "old.PDF"; "b.pdf"] "fpl.pdf" ["b.pdf"]
           [mock_page] [mock_page] [mock_page]
           ([mock_page], <["k" := VInt 5]> ∅)
           ({| model := VStr "gpt-4"; temperature := VFloat 0.2%float;
               openai_api_key := Some "sk-test" |},
            ([mock_page], <["k" := VInt 5]> ∅)));
    try reflexivity.
  - repeat split.
  - intros q h. eexists. reflexivity.
Defined.
